(** * dataview.py: time series plot with a bounded number of drawn points

    A shallow embedding of [DataPlot] (src/dataview.py) and the properties
    of its construction, of the initial plot and of the mouse-release
    recompute.

    Modelling choices.
    - Numbers (Python ints and floats, numpy scalars) are exact rationals
      [Q]; the results of arithmetic are kept reduced, so that two equal
      numbers are the same term.  Floating-point rounding is modelled
      where a claim turns on it: [Binary64] rounds a rational to the
      nearest binary64 number, and [_calc_downfact_binary64] is the stride
      computation with the roundings the interpreter makes.
    - Arrays are one-dimensional: an [ndarray] is a list of numbers, and
      the [data] argument is an ndarray, a list of arrays or a tuple of
      arrays.  Two-dimensional ndarrays are outside the model; one of two
      rows given alone is taken at line 75 like the tuple of its rows.
      The extra positional arguments are arrays; of the keyword arguments
      only [fs], the one the code reads, is kept.
    - The rendering surface (matplotlib) is not part of the source: the
      calls the code makes on it are logged, in order.  [ax.plot] refuses
      two arrays of different lengths and is then not logged; the other
      calls do not fail.
    - A Python exception is an [exn]; a call that raises keeps the log of
      the calls made before.  The [print] calls are left out. *)

From Stdlib Require Import ZArith QArith Qround Qreduction Qabs Qpower.
From Stdlib Require Import List Bool Lia Lqa SpecFloat.
Import ListNotations.

(** ** Numbers *)

Module Num.

Open Scope Q_scope.

(** [a / b] under [from __future__ import division], [b] not zero. *)
Definition truediv (a b : Q) : Q := Qred (a / b).

(** [a - b]. *)
Definition sub (a b : Q) : Q := Qred (a - b).

(** [int(x)]: truncation toward zero. *)
Definition int (x : Q) : Z := Z.quot (Qnum x) (Zpos (Qden x)).

(** Modelled from the spec: [ceil] is read by [_calc_downfact] but the
    module neither defines nor imports it, and expects it from the
    namespace it is run in; the spec gives the stride as
    [ceil(pointCount / PointBudget)], the least integer not below the
    quotient, which numpy and [math] return as a float. *)
Definition ceil (x : Q) : Q := inject_Z (Qceiling x).

(** Truth value of a number: [if x:]. *)
Definition truthy (x : Q) : bool := negb (Qeq_bool x 0).

(** [a > b] and [a < b]. *)
Definition gt (a b : Q) : bool := negb (Qle_bool a b).
Definition lt (a b : Q) : bool := negb (Qle_bool b a).

End Num.

(** ** Binary64

    A Python float and a numpy [float64] are IEEE 754 binary64 numbers:
    53 significant bits, exponents up to 1023, subnormal numbers down to
    [2^-1074].  An operation gives the binary64 number nearest to the exact
    result, a tie going to the one whose last bit is even. *)

Module Binary64.

Open Scope Q_scope.

Definition pow2 (e : Z) : Q := 2 ^ e.

(** The nearest integer, a tie going to the even one. *)
Definition rne (x : Q) : Z :=
  let f := Qfloor x in
  match Qcompare (x - inject_Z f) (1 # 2) with
  | Lt => f
  | Gt => (f + 1)%Z
  | Eq => if Z.even f then f else (f + 1)%Z
  end.

(** [floor (log2 x)] of a positive [x]. *)
Definition ilog2 (x : Q) : Z :=
  if Qle_bool 1 x then Z.log2 (Qfloor x)
  else (- Z.log2_up (Qceiling (/ x)))%Z.

(** The exponent of the last place of a positive [x]: 53 significant
    bits, and no less than the last place of the subnormal numbers. *)
Definition exponent (x : Q) : Z := Z.max (ilog2 x - 52) (-1074).

Definition round_pos (x : Q) : Q :=
  inject_Z (rne (x / pow2 (exponent x))) * pow2 (exponent x).

(** The nearest binary64 number, or [None] when that is an infinity. *)
Definition round (x : Q) : option Q :=
  let m := match Qcompare x 0 with
           | Eq => 0
           | Gt => round_pos x
           | Lt => - round_pos (- x)
           end in
  if Qle_bool (pow2 1024) (Qabs m) then None else Some (Qred m).

(** The value of a number of the Standard Library's specification of
    IEEE 754 arithmetic; an infinity or a NaN has none. *)
Definition of_spec (f : spec_float) : option Q :=
  match f with
  | S754_zero _ => Some 0
  | S754_finite s m e =>
      Some (Qred ((if s then - inject_Z (Zpos m) else inject_Z (Zpos m))
                  * pow2 e))
  | _ => None
  end.

(** An integer and a quotient of two integers in that specification, and
    with [round]. *)
Definition spec_of_int (z : Z) : spec_float :=
  binary_normalize 53 1024 z 0 false.

Definition spec_quotient (a b : Z) : option Q :=
  of_spec (SFdiv 53 1024 (spec_of_int a) (spec_of_int b)).

Definition round_quotient (a b : Z) : option Q :=
  match round (inject_Z a), round (inject_Z b) with
  | Some x, Some y => round (x / y)
  | _, _ => None
  end.

End Binary64.

(** ** Exceptions and the rendering surface *)

Inductive exn : Type :=
| AttributeError
| IndexError
| TypeError
| ValueError
| ZeroDivisionError
| OverflowError.

Inductive result (A : Type) : Type :=
| Ok (a : A)
| Raise (e : exn).

Arguments Ok {A} a.
Arguments Raise {A} e.

(** What indexing yields: a numpy scalar (an element of an ndarray) or an
    array (an element of a list or tuple of arrays). *)
Inductive item : Type :=
| Scalar (x : Q)
| Array (v : list Q).

(** The calls made on the rendering surface. *)
Inductive call : Type :=
| Subplots                              (* plt.subplots(figsize=...) *)
| SubplotsAdjust                        (* fig.subplots_adjust(...) *)
| MplConnect                            (* 'button_release_event' -> _onrelease *)
| Plot (xs ys : item) (visible : bool)  (* ax.plot(xs, ys, visible=...) *)
| SetVisible (b : bool)                 (* line.set_visible(b) *)
| CallbacksConnect                      (* 'xlim_changed' -> _onchanged *)
| SetData (xs ys : item).               (* line.set_data(xs, ys) *)

Definition surface : Type := list call.

(** Computations that call the rendering surface and may raise. *)
Definition M (A : Type) : Type := surface -> result A * surface.

Definition ret {A} (a : A) : M A := fun w => (Ok a, w).

Definition bind {A B} (m : M A) (k : A -> M B) : M B :=
  fun w => match m w with
           | (Ok a, w') => k a w'
           | (Raise e, w') => (Raise e, w')
           end.

Definition lift {A} (r : result A) : M A := fun w => (r, w).

Definition emit (c : call) : M unit := fun w => (Ok tt, w ++ [c]).

Declare Scope py_scope.
Delimit Scope py_scope with py.
Notation "x <- m ;; k" := (bind m (fun x => k))
  (at level 61, m at next level, right associativity) : py_scope.
Notation "m ;; k" := (bind m (fun _ => k))
  (at level 61, right associativity) : py_scope.
Open Scope py_scope.

(** ** Arrays and sequences *)

(** The [data] argument. *)
Inductive pydata : Type :=
| NdArray (v : list Q)            (* numpy.ndarray of samples *)
| PyList (items : list (list Q))  (* list of arrays *)
| PyTuple (items : list (list Q)). (* tuple of arrays *)

Module Py.

(** [hasattr(d, 'shape')]. *)
Definition has_shape (d : pydata) : bool :=
  match d with
  | NdArray _ => true
  | PyList _ | PyTuple _ => false
  end.

(** Modelled from the spec: [ndarray] is read by [__init__] but not
    imported (see [Num.ceil]); it is numpy's array type, the third kind
    of container that [isinstance(data, (list, tuple, ndarray))]
    accepts. *)
Definition isinstance_list_tuple_ndarray (d : pydata) : bool :=
  match d with
  | NdArray _ | PyList _ | PyTuple _ => true
  end.

Definition len {A} (l : list A) : Z := Z.of_nat (length l).

(** [len(d)]. *)
Definition len_data (d : pydata) : Z :=
  match d with
  | NdArray v => len v
  | PyList items | PyTuple items => len items
  end.

(** [d[i]] for a constant index [i >= 0]. *)
Definition getitem (d : pydata) (i : nat) : result item :=
  match d with
  | NdArray v =>
      match nth_error v i with
      | Some x => Ok (Scalar x)
      | None => Raise IndexError
      end
  | PyList items | PyTuple items =>
      match nth_error items i with
      | Some a => Ok (Array a)
      | None => Raise IndexError
      end
  end.

(** [x[i]]: a numpy scalar cannot be indexed. *)
Definition item_getitem (x : item) (i : nat) : result Q :=
  match x with
  | Scalar _ => Raise IndexError
  | Array v =>
      match nth_error v i with
      | Some y => Ok y
      | None => Raise IndexError
      end
  end.

(** [len(x)]: a numpy scalar has no length. *)
Definition item_len (x : item) : result Z :=
  match x with
  | Scalar _ => Raise TypeError
  | Array v => Ok (len v)
  end.

(** The elements of [l] at the positions [c], [c + d], [c + 2 d], ...
    counted from [c] positions ahead. *)
Fixpoint stride_from {A} (d c : nat) (l : list A) : list A :=
  match l with
  | [] => []
  | x :: l' =>
      match c with
      | O => x :: stride_from d (pred d) l'
      | S c' => stride_from d c' l'
      end
  end.

(** [l[::d]] for [d > 0]. *)
Definition stride {A} (d : nat) (l : list A) : list A := stride_from d 0 l.

(** [v[::step]]: every [step]-th element from the first one; from the
    last one backwards when [step] is negative; a zero step raises. *)
Definition slice_step (v : list Q) (step : Z) : result (list Q) :=
  match step with
  | Z0 => Raise ValueError
  | Zpos p => Ok (stride (Pos.to_nat p) v)
  | Zneg p => Ok (stride (Pos.to_nat p) (rev v))
  end.

(** [x[::step]]. *)
Definition item_slice (x : item) (step : Z) : result item :=
  match x with
  | Scalar _ => Raise IndexError
  | Array v =>
      match slice_step v step with
      | Ok v' => Ok (Array v')
      | Raise e => Raise e
      end
  end.

(** [np.arange(n) / fs]. *)
Definition arange_div (n : nat) (fs : Q) : list Q :=
  map (fun i => Num.truediv (inject_Z (Z.of_nat i)) fs) (seq 0 n).

End Py.

(** ** The plot object *)

(** The line created by [ax.plot]: the data it shows and its visibility. *)
Record Line2D : Type := mkLine {
  xdata : item;
  ydata : item;
  visible : bool
}.

(** The attributes of a [DataPlot]; [None] in [data], [line] and
    [changed] is an attribute that was never assigned, [None] in [fs] is
    Python's [None]. *)
Record DataPlot : Type := mkDataPlot {
  fs : option Q;
  ts : Q;
  data : option pydata;
  _point_max : Q;
  line : option Line2D;
  changed : option (Q * Q)
}.

(** [default_kwargs['point_max']]. *)
Definition default_point_max : Q := 10000.

Definition getattr {A} (a : option A) : result A :=
  match a with
  | Some x => Ok x
  | None => Raise AttributeError
  end.

(** [self.data[i]]. *)
Definition self_data (self : DataPlot) (i : nat) : result item :=
  match getattr (data self) with
  | Ok d => Py.getitem d i
  | Raise e => Raise e
  end.

(** [self.data[i][::step]]. *)
Definition self_data_slice (self : DataPlot) (i : nat) (step : Z)
  : result item :=
  match self_data self i with
  | Ok x => Py.item_slice x step
  | Raise e => Raise e
  end.

(** [_calc_downfact]: [int(ceil(point_num / self._point_max))], the
    quotient taken exactly. *)
Definition _calc_downfact (self : DataPlot) (point_num : Z) : result Z :=
  if Qeq_bool (_point_max self) 0 then Raise ZeroDivisionError
  else Ok (Num.int (Num.ceil (Num.truediv (inject_Z point_num)
                             (_point_max self)))).

(** [_calc_downfact] with the roundings of the interpreter.  [point_num]
    is an [int] and [self._point_max] the float [1e4]: the [int] is
    converted to the nearest binary64 number ([OverflowError] when there
    is none), the quotient of the two floats is rounded to the nearest
    binary64 number, [ceil] of a float is exact, and [int] of an infinite
    float raises [OverflowError]. *)
Definition _calc_downfact_binary64 (self : DataPlot) (point_num : Z)
  : result Z :=
  match Binary64.round (inject_Z point_num) with
  | None => Raise OverflowError
  | Some p =>
      if Qeq_bool (_point_max self) 0 then Raise ZeroDivisionError
      else match Binary64.round (p / _point_max self) with
           | None => Raise OverflowError
           | Some q => Ok (Num.int (Num.ceil q))
           end
  end.

(** The first dimension of what is handed to [ax.plot]; a number counts
    as an array of one. *)
Definition first_dimension (x : item) : Z :=
  match x with
  | Scalar _ => 1
  | Array v => Py.len v
  end.

(** [ax.plot(xs, ys, visible=...)]: one line is created, unless the first
    dimensions of the two arrays differ, which matplotlib refuses with
    [ValueError] (x and y must have same first dimension). *)
Definition ax_plot (xs ys : item) (vis : bool) : M Line2D :=
  if (first_dimension xs =? first_dimension ys)%Z
  then emit (Plot xs ys vis) ;; ret (mkLine xs ys vis)
  else lift (Raise ValueError).

(** [_plotdata]: the initial plot. *)
Definition _plotdata (self : DataPlot) : M DataPlot :=
  emit Subplots ;;
  emit SubplotsAdjust ;;
  emit MplConnect ;;
  x0 <- lift (self_data self 0) ;;
  point_num <- lift (Py.item_len x0) ;;
  l <- (if Num.gt (inject_Z point_num) (_point_max self) then
          down_fact <- lift (_calc_downfact self point_num) ;;
          xs <- lift (self_data_slice self 0 down_fact) ;;
          ys <- lift (self_data_slice self 1 down_fact) ;;
          ax_plot xs ys false
        else
          xs <- lift (self_data self 0) ;;
          ys <- lift (self_data self 1) ;;
          ax_plot xs ys false) ;;
  emit (SetVisible true) ;;
  emit CallbacksConnect ;;
  ret (mkDataPlot (fs self) (ts self) (data self) (_point_max self)
         (Some (mkLine (xdata l) (ydata l) true)) (changed self)).

(** [line.set_data(xs, ys)]: the same line, new data. *)
Definition set_data (l : Line2D) (xs ys : item) : Line2D :=
  mkLine xs ys (visible l).

(** The view range read by [_onrelease], with a negative low bound
    replaced by 0. *)
Definition clamp (c : Q * Q) : Q * Q :=
  if Num.lt (fst c) 0 then (0, snd c) else c.

(** [int((xlim_high - xlim_low) / self.ts)]; the bounds are numpy floats,
    so a zero [ts] gives [inf] or [nan], which [int] refuses. *)
Definition window_points (self : DataPlot) (lim : Q * Q) : result Z :=
  let width := Num.sub (snd lim) (fst lim) in
  if Qeq_bool (ts self) 0 then
    if Qeq_bool width 0 then Raise ValueError else Raise OverflowError
  else Ok (Num.int (Num.truediv width (ts self))).

(** [_onrelease]: the mouse button release callback. *)
Definition _onrelease (self : DataPlot) : M DataPlot :=
  c <- lift (getattr (changed self)) ;;
  let lim := clamp c in
  point_num <- lift (window_points self lim) ;;
  if Num.gt (inject_Z point_num) (_point_max self) then
    down_fact <- lift (_calc_downfact self point_num) ;;
    l <- lift (getattr (line self)) ;;
    xs <- lift (self_data_slice self 0 down_fact) ;;
    ys <- lift (self_data_slice self 1 down_fact) ;;
    emit (SetData xs ys) ;;
    ret (mkDataPlot (fs self) (ts self) (data self) (_point_max self)
           (Some (set_data l xs ys)) (changed self))
  else
    l <- lift (getattr (line self)) ;;
    xs <- lift (self_data self 0) ;;
    ys <- lift (self_data self 1) ;;
    emit (SetData xs ys) ;;
    ret (mkDataPlot (fs self) (ts self) (data self) (_point_max self)
           (Some (set_data l xs ys)) (changed self)).

(** [_onchanged]: [self.changed = ax.get_xlim()]. *)
Definition _onchanged (self : DataPlot) (xlim : Q * Q) : DataPlot :=
  mkDataPlot (fs self) (ts self) (data self) (_point_max self)
    (line self) (Some xlim).

(** ** Construction *)

(** The branch of [__init__] that the arguments select. *)
Inductive shape : Type :=
| SingleArray    (* data: single array (y) *)
| XYVectors      (* data: x- and y-vector *)
| TwoSequence    (* data: two-element sequence *)
| NoShape.       (* none of the three *)

Definition input_shape (d : pydata) (args : list (list Q)) : shape :=
  if Py.has_shape d && negb (0 <? Py.len args)%Z && (2 <? Py.len_data d)%Z
  then SingleArray
  else if Py.has_shape d && (0 <? Py.len args)%Z
  then XYVectors
  else if (Py.len_data d =? 2)%Z && Py.isinstance_list_tuple_ndarray d
  then TwoSequence
  else NoShape.

(** [if self.fs:]. *)
Definition fs_given (f : option Q) : bool :=
  match f with
  | Some x => Num.truthy x
  | None => false
  end.

(** [self.fs] and [self.data] after the three branches.  Only an ndarray
    has a [shape], so [data] is one in the first two branches, and
    [args[0]] exists in the second: the other cases of the inner matches
    are never reached. *)
Definition resolve (d : pydata) (args : list (list Q)) (kw_fs : option Q)
  : option Q * option pydata :=
  match input_shape d args with
  | SingleArray =>
      let f := if fs_given kw_fs then kw_fs else Some 1 in
      let rate := match f with Some x => x | None => 1 end in
      let y_data := match d with NdArray v => v | _ => [] end in
      let x_data := Py.arange_div (length y_data) rate in
      (f, Some (PyTuple [x_data; y_data]))
  | XYVectors =>
      let x_data := match d with NdArray v => v | _ => [] end in
      (kw_fs, match args with
              | y_data :: _ => Some (PyTuple [x_data; y_data])
              | [] => None
              end)
  | TwoSequence => (kw_fs, Some d)
  | NoShape => (kw_fs, None)
  end.

(** [self.data[0][1] - self.data[0][0]]. *)
Definition first_difference (d : option pydata) : result Q :=
  match getattr d with
  | Ok dd =>
      match Py.getitem dd 0 with
      | Ok x0 =>
          match Py.item_getitem x0 1 with
          | Ok b =>
              match Py.item_getitem x0 0 with
              | Ok a => Ok (Num.sub b a)
              | Raise e => Raise e
              end
          | Raise e => Raise e
          end
      | Raise e => Raise e
      end
  | Raise e => Raise e
  end.

(** The sampling interval: [1 / self.fs] when [self.fs] is true, the
    difference of the first two time values otherwise. *)
Definition interval (f : option Q) (d : option pydata) : result Q :=
  match f with
  | Some x => if Num.truthy x then Ok (Num.truediv 1 x) else first_difference d
  | None => first_difference d
  end.

(** [DataPlot(data, *args, fs=...)]. *)
Definition __init__ (d : pydata) (args : list (list Q)) (kw_fs : option Q)
  : M DataPlot :=
  let (f, dat) := resolve d args kw_fs in
  t <- lift (interval f dat) ;;
  _plotdata (mkDataPlot f t dat default_point_max None None).

(** [plotdata]: instantiate the [DataPlot] class and return the
    instance. *)
Definition plotdata (d : pydata) (args : list (list Q)) (kw_fs : option Q)
  : M DataPlot :=
  __init__ d args kw_fs.

(** ** The two plotting steps, by cases

    The stride and the arrays of [_plotdata] and [_onrelease], as functions
    of the attributes they read. *)

(** The stride of the initial plot: [None] when the series has no more
    than [_point_max] points and is plotted whole. *)
Definition plot_stride (self : DataPlot) : result (option Z) :=
  match self_data self 0 with
  | Raise e => Raise e
  | Ok x0 =>
      match Py.item_len x0 with
      | Raise e => Raise e
      | Ok point_num =>
          if Num.gt (inject_Z point_num) (_point_max self) then
            match _calc_downfact self point_num with
            | Ok down_fact => Ok (Some down_fact)
            | Raise e => Raise e
            end
          else Ok None
      end
  end.

(** The stride of a recompute: [None] when the window holds no more than
    [_point_max] points. *)
Definition release_stride (self : DataPlot) : result (option Z) :=
  match getattr (changed self) with
  | Raise e => Raise e
  | Ok c =>
      match window_points self (clamp c) with
      | Raise e => Raise e
      | Ok point_num =>
          if Num.gt (inject_Z point_num) (_point_max self) then
            match _calc_downfact self point_num with
            | Ok down_fact => Ok (Some down_fact)
            | Raise e => Raise e
            end
          else Ok None
      end
  end.

(** The two arrays handed to the renderer for a given stride. *)
Definition strided_data (self : DataPlot) (st : option Z)
  : result (item * item) :=
  match st with
  | Some down_fact =>
      match self_data_slice self 0 down_fact with
      | Raise e => Raise e
      | Ok xs =>
          match self_data_slice self 1 down_fact with
          | Raise e => Raise e
          | Ok ys => Ok (xs, ys)
          end
      end
  | None =>
      match self_data self 0 with
      | Raise e => Raise e
      | Ok xs =>
          match self_data self 1 with
          | Raise e => Raise e
          | Ok ys => Ok (xs, ys)
          end
      end
  end.

Definition with_line (self : DataPlot) (l : Line2D) : DataPlot :=
  mkDataPlot (fs self) (ts self) (data self) (_point_max self)
    (Some l) (changed self).


(** ** A small session

    Four samples without a sampling rate: the plot that [__init__] builds,
    the calls it makes, and the plot after the view was moved to [1, 2]
    and the mouse button released. *)

Definition four_samples : pydata := NdArray [5; 6; 7; 8]%Q.

Definition four_line : Line2D :=
  mkLine (Array [0; 1; 2; 3]%Q) (Array [5; 6; 7; 8]%Q) true.

Definition four_plot : DataPlot :=
  mkDataPlot (Some 1%Q) 1%Q
    (Some (PyTuple [[0; 1; 2; 3]; [5; 6; 7; 8]]%Q))
    default_point_max (Some four_line) None.

Definition four_log : surface :=
  [Subplots; SubplotsAdjust; MplConnect;
   Plot (Array [0; 1; 2; 3]%Q) (Array [5; 6; 7; 8]%Q) false;
   SetVisible true; CallbacksConnect].

Definition four_viewed : DataPlot := _onchanged four_plot (1, 2)%Q.

Definition four_payload : call :=
  SetData (Array [0; 1; 2; 3]%Q) (Array [5; 6; 7; 8]%Q).

(** ** A long session

    A million samples at 100 samples per unit of time, so that the window
    from 0 to 1000 holds 100,000 of them. *)

Definition million : list Q := repeat 0%Q (Z.to_nat 1000000).

Definition million_time : list Q := Py.arange_div (length million) 100.

(** ** Two axes of different lengths

    A time axis of 20,001 values, one per unit of time, and 20,000
    values. *)

Definition long_time : list Q := Py.arange_div (Z.to_nat 20001) 1.

Definition long_values : list Q := repeat 0%Q (Z.to_nat 20000).

(** * Properties *)

(** ** Numbers *)

Section NumFacts.

Local Open Scope Q_scope.

Lemma truediv_eq (a b : Q) : Num.truediv a b == a / b.
Proof. unfold Num.truediv. apply Qred_correct. Qed.

Lemma sub_eq (a b : Q) : Num.sub a b == a - b.
Proof. unfold Num.sub. apply Qred_correct. Qed.

Lemma int_inject_Z (z : Z) : Num.int (inject_Z z) = z.
Proof. unfold Num.int. simpl. apply Z.quot_1_r. Qed.

Lemma int_ceil (x : Q) : Num.int (Num.ceil x) = Qceiling x.
Proof. unfold Num.ceil. apply int_inject_Z. Qed.

Lemma Qeq_bool_false_neq (x y : Q) : Qeq_bool x y = false -> ~ x == y.
Proof.
  intros H E. apply Qeq_eq_bool in E. rewrite E in H. discriminate.
Qed.

Lemma Qeq_bool_pos (x : Q) : 0 < x -> Qeq_bool x 0 = false.
Proof.
  intros H. destruct (Qeq_bool x 0) eqn:E; [|reflexivity].
  apply Qeq_bool_eq in E. rewrite E in H. exfalso. revert H. apply Qlt_irrefl.
Qed.

Lemma gt_true (a b : Q) : Num.gt a b = true <-> b < a.
Proof.
  unfold Num.gt. rewrite negb_true_iff. split; intros H.
  - apply Qnot_le_lt. intros L. apply Qle_bool_iff in L. congruence.
  - destruct (Qle_bool a b) eqn:E; [|reflexivity].
    apply Qle_bool_iff in E. exfalso. apply (Qlt_not_le _ _ H E).
Qed.

Lemma gt_false (a b : Q) : Num.gt a b = false <-> a <= b.
Proof.
  unfold Num.gt. rewrite negb_false_iff. apply Qle_bool_iff.
Qed.

Lemma lt_true (a b : Q) : Num.lt a b = true <-> a < b.
Proof. exact (gt_true b a). Qed.

Lemma lt_false (a b : Q) : Num.lt a b = false <-> b <= a.
Proof. exact (gt_false b a). Qed.

End NumFacts.

(** ** The downsampling factor *)

Section Downfact.

Local Open Scope Q_scope.

Variable self : DataPlot.
Hypothesis budget_pos : 0 < _point_max self.

Lemma calc_downfact_ceiling (point_num : Z) :
  _calc_downfact self point_num
  = Ok (Qceiling (inject_Z point_num / _point_max self)).
Proof.
  unfold _calc_downfact. rewrite (Qeq_bool_pos _ budget_pos).
  rewrite int_ceil. f_equal. apply Qceiling_comp. apply truediv_eq.
Qed.

Lemma ceiling_quotient_pos (point_num : Z) :
  (0 < point_num)%Z ->
  (1 <= Qceiling (inject_Z point_num / _point_max self))%Z.
Proof.
  intros Hp.
  assert (Hq : 0 < inject_Z point_num / _point_max self).
  { apply Qlt_shift_div_l; [exact budget_pos|].
    rewrite Qmult_0_l. change 0 with (inject_Z 0).
    rewrite <- Zlt_Qlt. exact Hp. }
  pose proof (Qle_ceiling (inject_Z point_num / _point_max self)) as Hc.
  pose proof (Qlt_le_trans _ _ _ Hq Hc) as H0.
  change 0 with (inject_Z 0) in H0. rewrite <- Zlt_Qlt in H0. lia.
Qed.


End Downfact.

(** ** The downsampling factor in binary64 *)

Section Binary64Facts.

Local Open Scope Q_scope.

Lemma rne_comp (x y : Q) : x == y -> Binary64.rne x = Binary64.rne y.
Proof.
  intros H. unfold Binary64.rne. rewrite (Qfloor_comp x y H).
  assert (E : x - inject_Z (Qfloor y) == y - inject_Z (Qfloor y))
    by (rewrite H; reflexivity).
  rewrite (Qcompare_comp _ _ E (1 # 2) (1 # 2) (Qeq_refl _)). reflexivity.
Qed.

Lemma rne_inject_Z (z : Z) : Binary64.rne (inject_Z z) = z.
Proof.
  unfold Binary64.rne. rewrite Qfloor_Z.
  assert (E : inject_Z z - inject_Z z == 0) by ring.
  rewrite (Qcompare_comp _ _ E (1 # 2) (1 # 2) (Qeq_refl _)). reflexivity.
Qed.

(** The nearest integer is at most one half away. *)
Lemma rne_near (x : Q) :
  inject_Z (Binary64.rne x) - (1 # 2) <= x
  /\ x <= inject_Z (Binary64.rne x) + (1 # 2).
Proof.
  pose proof (Qfloor_le x) as Hl. pose proof (Qlt_floor x) as Hu.
  rewrite inject_Z_plus in Hu. change (inject_Z 1) with 1 in Hu.
  unfold Binary64.rne.
  destruct (Qcompare (x - inject_Z (Qfloor x)) (1 # 2)) eqn:E.
  - apply Qeq_alt in E.
    destruct (Z.even (Qfloor x));
      [|rewrite inject_Z_plus; change (inject_Z 1) with 1]; split; lra.
  - apply Qlt_alt in E. split; lra.
  - apply Qgt_alt in E. rewrite inject_Z_plus. change (inject_Z 1) with 1.
    split; lra.
Qed.

Lemma pow2_pos (e : Z) : 0 < Binary64.pow2 e.
Proof. apply Qpower_0_lt. reflexivity. Qed.

Lemma pow2_le (a b : Z) : (a <= b)%Z -> Binary64.pow2 a <= Binary64.pow2 b.
Proof. intros H. apply Qpower_le_compat_l; [exact H|discriminate]. Qed.

Lemma pow2_nonpos (e : Z) :
  (e <= 0)%Z -> Binary64.pow2 e == / inject_Z (2 ^ (- e)).
Proof.
  intros H. unfold Binary64.pow2.
  replace e with (- (- e))%Z at 1 by lia.
  rewrite Qpower_opp. rewrite Zpower_Qpower by lia. reflexivity.
Qed.

Lemma ilog2_comp (x y : Q) : x == y -> Binary64.ilog2 x = Binary64.ilog2 y.
Proof.
  intros H. unfold Binary64.ilog2.
  rewrite (Qleb_comp 1 1 (Qeq_refl _) x y H).
  rewrite (Qfloor_comp x y H).
  assert (E : / x == / y) by (rewrite H; reflexivity).
  rewrite (Qceiling_comp _ _ E). reflexivity.
Qed.

Lemma round_pos_comp (x y : Q) :
  x == y -> Binary64.round_pos x == Binary64.round_pos y.
Proof.
  intros H. unfold Binary64.round_pos, Binary64.exponent.
  rewrite (ilog2_comp x y H).
  set (e := Z.max (Binary64.ilog2 y - 52) (-1074)).
  assert (E : x / Binary64.pow2 e == y / Binary64.pow2 e)
    by (rewrite H; reflexivity).
  rewrite (rne_comp _ _ E). reflexivity.
Qed.

Lemma round_comp (x y : Q) : x == y -> Binary64.round x = Binary64.round y.
Proof.
  intros H. unfold Binary64.round.
  rewrite (Qcompare_comp x y H 0 0 (Qeq_refl _)).
  set (mx := match y ?= 0 with
             | Eq => 0 | Gt => Binary64.round_pos x
             | Lt => - Binary64.round_pos (- x) end).
  set (my := match y ?= 0 with
             | Eq => 0 | Gt => Binary64.round_pos y
             | Lt => - Binary64.round_pos (- y) end).
  assert (E : mx == my).
  { unfold mx, my. destruct (y ?= 0).
    - reflexivity.
    - apply Qopp_comp. apply round_pos_comp. rewrite H. reflexivity.
    - apply round_pos_comp. exact H. }
  rewrite (Qleb_comp _ _ (Qeq_refl (Binary64.pow2 1024)) _ _ (Qabs_wd _ _ E)).
  rewrite (Qred_complete _ _ E). reflexivity.
Qed.

Lemma exponent_integer (z : Z) :
  (0 < z < 2 ^ 53)%Z -> (Binary64.exponent (inject_Z z) <= 0)%Z.
Proof.
  intros [H0 H1]. unfold Binary64.exponent, Binary64.ilog2.
  assert (L : Qle_bool 1 (inject_Z z) = true).
  { apply Qle_bool_iff. change 1 with (inject_Z 1). rewrite <- Zle_Qle. lia. }
  rewrite L, Qfloor_Z.
  apply (Z.log2_lt_pow2 z 53 H0) in H1. lia.
Qed.

(** An integer of at most 53 bits is a binary64 number. *)
Lemma round_pos_integer (z : Z) :
  (0 < z < 2 ^ 53)%Z -> Binary64.round_pos (inject_Z z) == inject_Z z.
Proof.
  intros H. pose proof (exponent_integer z H) as He.
  unfold Binary64.round_pos.
  set (e := Binary64.exponent (inject_Z z)) in *.
  assert (N : ~ inject_Z (2 ^ (- e)) == 0).
  { change 0 with (inject_Z 0). rewrite inject_Z_injective.
    apply Z.pow_nonzero; lia. }
  assert (E : inject_Z z / Binary64.pow2 e == inject_Z (z * 2 ^ (- e))).
  { rewrite (pow2_nonpos e He), inject_Z_mult. field. exact N. }
  rewrite (rne_comp _ _ E), rne_inject_Z.
  rewrite (pow2_nonpos e He), inject_Z_mult. field. exact N.
Qed.

Lemma below_overflow (m : Q) (b : Z) :
  0 <= m -> m <= inject_Z b -> (b <= 2 ^ 53)%Z ->
  Qle_bool (Binary64.pow2 1024) (Qabs m) = false.
Proof.
  intros H0 H1 Hb.
  destruct (Qle_bool (Binary64.pow2 1024) (Qabs m)) eqn:E; [|reflexivity].
  apply Qle_bool_iff in E. rewrite (Qabs_pos m H0) in E.
  rewrite Zle_Qle in Hb.
  assert (B : inject_Z (2 ^ 53) < Binary64.pow2 1024) by reflexivity.
  lra.
Qed.

Lemma round_integer (z : Z) :
  (0 < z < 2 ^ 53)%Z ->
  exists q, Binary64.round (inject_Z z) = Some q /\ q == inject_Z z.
Proof.
  intros H. pose proof (round_pos_integer z H) as E.
  unfold Binary64.round.
  assert (G : (inject_Z z ?= 0) = Gt).
  { apply Qgt_alt. change 0 with (inject_Z 0). rewrite <- Zlt_Qlt. lia. }
  rewrite G.
  assert (P : 0 <= inject_Z z).
  { change 0 with (inject_Z 0). rewrite <- Zle_Qle. lia. }
  rewrite (below_overflow _ z);
    [|rewrite E; exact P|rewrite E; apply Qle_refl|lia].
  eexists. split; [reflexivity|]. rewrite Qred_correct. exact E.
Qed.

(** Below [2^40] the last place is at most [2^-13]. *)
Lemma exponent_small (x : Q) (k : Z) :
  0 < x -> x <= inject_Z k -> (k < 2 ^ 40)%Z ->
  (Binary64.exponent x <= -13)%Z.
Proof.
  intros H0 Hk Hb. unfold Binary64.exponent, Binary64.ilog2.
  destruct (Qle_bool 1 x) eqn:L.
  - apply Qle_bool_iff in L.
    pose proof (Qfloor_resp_le _ _ L) as F1. change (Qfloor 1) with 1%Z in F1.
    pose proof (Qfloor_resp_le _ _ Hk) as F2. rewrite Qfloor_Z in F2.
    assert (F3 : (Qfloor x < 2 ^ 40)%Z) by lia.
    apply Z.log2_lt_pow2 in F3; lia.
  - pose proof (Z.log2_up_nonneg (Qceiling (/ x))). lia.
Qed.

(** Rounding moves a positive number by at most half its last place. *)
Lemma round_pos_near (x : Q) :
  Binary64.round_pos x - (1 # 2) * Binary64.pow2 (Binary64.exponent x) <= x
  /\ x <= Binary64.round_pos x + (1 # 2) * Binary64.pow2 (Binary64.exponent x).
Proof.
  unfold Binary64.round_pos.
  set (P := Binary64.pow2 (Binary64.exponent x)).
  pose proof (pow2_pos (Binary64.exponent x)) as HP. fold P in HP.
  destruct (rne_near (x / P)) as [A B].
  set (n := inject_Z (Binary64.rne (x / P))) in *.
  assert (X : x == (x / P) * P).
  { field. intros Z0. rewrite Z0 in HP. revert HP. apply Qlt_irrefl. }
  apply (Qmult_le_compat_r _ _ P) in A; [|apply Qlt_le_weak; exact HP].
  apply (Qmult_le_compat_r _ _ P) in B; [|apply Qlt_le_weak; exact HP].
  rewrite <- X in A. rewrite <- X in B.
  split.
  - setoid_replace (n * P - (1 # 2) * P) with ((n - (1 # 2)) * P) by ring.
    exact A.
  - setoid_replace (n * P + (1 # 2) * P) with ((n + (1 # 2)) * P) by ring.
    exact B.
Qed.

Lemma ceiling_between (y : Q) (k : Z) :
  inject_Z k < y -> y <= inject_Z (k + 1) -> Qceiling y = (k + 1)%Z.
Proof.
  intros A B. pose proof (Qle_ceiling y) as C.
  pose proof (Qceiling_lt y) as D.
  pose proof (Qlt_le_trans _ _ _ A C) as E. rewrite <- Zlt_Qlt in E.
  pose proof (Qlt_le_trans _ _ _ D B) as F. rewrite <- Zlt_Qlt in F.
  lia.
Qed.

(** The quotient of a point count below [2^53] by the budget of 10,000,
    rounded to binary64, has the ceiling of the exact quotient. *)
Lemma round_quotient_ceiling (p : Z) :
  (0 < p < 2 ^ 53)%Z ->
  exists q,
    Binary64.round (inject_Z p / 10000) = Some q
    /\ Qceiling q = Qceiling (inject_Z p / 10000).
Proof.
  intros H.
  pose proof (Z_div_mod_eq_full p 10000) as D.
  pose proof (Z.mod_pos_bound p 10000 eq_refl) as R.
  set (k := (p / 10000)%Z) in *. set (r := (p mod 10000)%Z) in *.
  assert (X : inject_Z p / 10000 == inject_Z k + inject_Z r * (1 # 10000)).
  { rewrite D, inject_Z_plus, inject_Z_mult.
    change (inject_Z 10000) with 10000. field. }
  destruct (Z.eq_dec r 0) as [Z0|NZ].
  - assert (X' : inject_Z p / 10000 == inject_Z k).
    { rewrite X, Z0. change (inject_Z 0) with 0. ring. }
    rewrite (round_comp _ _ X').
    destruct (round_integer k) as (q & E & Q); [lia|].
    exists q. split; [exact E|].
    rewrite (Qceiling_comp _ _ Q), (Qceiling_comp _ _ X'). reflexivity.
  - assert (R1 : 1 <= inject_Z r).
    { change 1 with (inject_Z 1). rewrite <- Zle_Qle. lia. }
    assert (R2 : inject_Z r <= 9999).
    { change 9999 with (inject_Z 9999). rewrite <- Zle_Qle. lia. }
    assert (K0 : 0 <= inject_Z k).
    { change 0 with (inject_Z 0). rewrite <- Zle_Qle. lia. }
    set (x := inject_Z p / 10000) in *.
    assert (Xl : inject_Z k + (1 # 10000) <= x) by (rewrite X; lra).
    assert (Xu : x <= inject_Z k + (9999 # 10000)) by (rewrite X; lra).
    assert (Xp : 0 < x) by lra.
    assert (He : (Binary64.exponent x <= -13)%Z).
    { apply (exponent_small x (k + 1)); [exact Xp| |lia].
      rewrite inject_Z_plus. change (inject_Z 1) with 1. lra. }
    pose proof (pow2_le _ _ He) as HP.
    change (Binary64.pow2 (-13)) with (1 # 8192) in HP.
    pose proof (pow2_pos (Binary64.exponent x)) as HP0.
    destruct (round_pos_near x) as [A B].
    set (P := Binary64.pow2 (Binary64.exponent x)) in *.
    set (m := Binary64.round_pos x) in *.
    assert (Ml : inject_Z k < m) by lra.
    assert (Mu : m <= inject_Z (k + 1))
      by (rewrite inject_Z_plus; change (inject_Z 1) with 1; lra).
    unfold Binary64.round.
    assert (G : (x ?= 0) = Gt) by (apply Qgt_alt; exact Xp).
    rewrite G. fold m.
    rewrite (below_overflow m (k + 1)); [|lra|exact Mu|lia].
    eexists. split; [reflexivity|].
    rewrite (Qceiling_comp _ _ (Qred_correct m)).
    rewrite (ceiling_between m k Ml Mu).
    symmetry.
    apply ceiling_between;
      [|rewrite inject_Z_plus; change (inject_Z 1) with 1]; lra.
Qed.

End Binary64Facts.

(** [Binary64.round] against the Standard Library's specification of
    IEEE 754 arithmetic: conversions of integers, among them ties and the
    first integer that overflows, and quotients, among them inexact, exact
    and subnormal ones. *)
Example round_agrees_with_spec :
  Forall (fun z => Binary64.of_spec (Binary64.spec_of_int z)
                   = Binary64.round (inject_Z z))
    [0; 1; -1; 10000; 2 ^ 53 - 1; 2 ^ 53 + 1; 2 ^ 53 + 2; 2 ^ 53 + 3;
     - (2 ^ 53 + 1); 176431346202150016; 176431346202150017;
     2 ^ 1024 - 2 ^ 970 - 1; 2 ^ 1024 - 2 ^ 970; 2 ^ 1024]%Z
  /\ Forall (fun ab => Binary64.spec_quotient (fst ab) (snd ab)
                       = Binary64.round_quotient (fst ab) (snd ab))
       [(1, 10); (1, 3); (2, 3); (-7, 3); (25000, 10000); (10001, 10000);
        (20001, 10000); (2 ^ 53 - 1, 10000); (90071992547409, 10000);
        (176431346202150016, 10000); (1, 2 ^ 1023); (1, 3 * 2 ^ 1022);
        (5, 3 * 2 ^ 1022); (2 ^ 1023, 3)]%Z.
Proof.
  split; repeat (constructor; [vm_compute; reflexivity|]); constructor.
Qed.

Lemma calc_downfact_binary64_ceiling (self : DataPlot) (point_num : Z) :
  _point_max self = default_point_max ->
  (0 < point_num < 2 ^ 53)%Z ->
  _calc_downfact_binary64 self point_num
  = Ok (Qceiling (inject_Z point_num / default_point_max)).
Proof.
  intros Hb Hp. unfold _calc_downfact_binary64. rewrite Hb.
  destruct (round_integer point_num Hp) as (p & Ep & Qp). rewrite Ep.
  change (Qeq_bool default_point_max 0) with false. cbv iota.
  assert (E : (p / default_point_max == inject_Z point_num / 10000)%Q).
  { rewrite Qp. reflexivity. }
  rewrite (round_comp _ _ E).
  destruct (round_quotient_ceiling point_num Hp) as (q & Eq & Cq).
  rewrite Eq, int_ceil. f_equal. exact Cq.
Qed.

(** Below [2^53] points the roundings do not show: the exact quotient and
    the rounded one give the same downsampling factor. *)
Lemma calc_downfact_binary64_exact (self : DataPlot) (point_num : Z) :
  _point_max self = default_point_max ->
  (0 < point_num < 2 ^ 53)%Z ->
  _calc_downfact_binary64 self point_num = _calc_downfact self point_num.
Proof.
  intros Hb Hp. rewrite (calc_downfact_binary64_ceiling self point_num Hb Hp).
  rewrite calc_downfact_ceiling by (rewrite Hb; reflexivity).
  rewrite Hb. reflexivity.
Qed.




(** ** Strided slices *)

Section Stride.

Variable A : Type.

Lemma stride_from_In (d : nat) (l : list A) :
  forall c x, In x (Py.stride_from d c l) -> In x l.
Proof.
  induction l as [|y l IH]; intros c x H; simpl in *; [exact H|].
  destruct c as [|c].
  - destruct H as [H|H]; [left; exact H|right; exact (IH _ _ H)].
  - right. exact (IH _ _ H).
Qed.

Lemma stride_In (d : nat) (l : list A) (x : A) :
  In x (Py.stride d l) -> In x l.
Proof. apply stride_from_In. Qed.

Lemma stride_from_len (d : nat) (l : list A) :
  (0 < d)%nat ->
  forall c, (c < d)%nat ->
    Py.len (Py.stride_from d c l)
    = ((Py.len l + Z.of_nat d - 1 - Z.of_nat c) / Z.of_nat d)%Z.
Proof.
  intros Hd. unfold Py.len.
  induction l as [|y l IH]; intros c Hc.
  - simpl. symmetry. apply Z.div_small. lia.
  - cbn [Py.stride_from length]. destruct c as [|c].
    + cbn [length]. rewrite Nat2Z.inj_succ.
      rewrite (IH (pred d)) by lia.
      replace (Z.of_nat (length l) + Z.of_nat d - 1 - Z.of_nat (pred d))%Z
        with (Z.of_nat (length l)) by lia.
      replace (Z.of_nat (S (length l)) + Z.of_nat d - 1 - Z.of_nat 0)%Z
        with (Z.of_nat (length l) + 1 * Z.of_nat d)%Z by lia.
      rewrite Z.div_add by lia. lia.
    + rewrite (IH c) by lia. f_equal. lia.
Qed.

Lemma stride_len (d : nat) (l : list A) :
  (0 < d)%nat ->
  Py.len (Py.stride d l)
  = ((Py.len l + Z.of_nat d - 1) / Z.of_nat d)%Z.
Proof.
  intros Hd. unfold Py.stride. rewrite (stride_from_len d l Hd) by exact Hd.
  f_equal. simpl. lia.
Qed.

Lemma stride_from_one (l : list A) : Py.stride_from 1 0 l = l.
Proof. induction l as [|y l IH]; simpl; [reflexivity|]. now rewrite IH. Qed.

End Stride.


Lemma slice_step_pos_len (v : list Q) (step : Z) :
  (0 < step)%Z ->
  exists v', Py.slice_step v step = Ok v'
             /\ v' = Py.stride (Z.to_nat step) v
             /\ Py.len v' = ((Py.len v + step - 1) / step)%Z.
Proof.
  intros H. destruct step as [|p|p]; try lia.
  eexists. split; [reflexivity|]. split; [reflexivity|].
  rewrite stride_len by lia. now rewrite positive_nat_Z.
Qed.

(** ** Unfolding the plotting steps *)

Ltac run := unfold bind, lift, emit, ret; simpl.

Lemma plotdata_cases (self : DataPlot) (w : surface) :
  _plotdata self w =
  match plot_stride self with
  | Raise e => (Raise e, w ++ [Subplots; SubplotsAdjust; MplConnect])
  | Ok st =>
      match strided_data self st with
      | Raise e => (Raise e, w ++ [Subplots; SubplotsAdjust; MplConnect])
      | Ok (xs, ys) =>
          if (first_dimension xs =? first_dimension ys)%Z
          then (Ok (with_line self (mkLine xs ys true)),
                w ++ [Subplots; SubplotsAdjust; MplConnect;
                      Plot xs ys false; SetVisible true; CallbacksConnect])
          else (Raise ValueError, w ++ [Subplots; SubplotsAdjust; MplConnect])
      end
  end.
Proof.
  unfold _plotdata, plot_stride, strided_data, with_line, ax_plot. run.
  repeat rewrite <- app_assoc. simpl.
  destruct (self_data self 0) as [x0|e]; [|reflexivity].
  destruct (Py.item_len x0) as [n|e]; [|reflexivity].
  destruct (Num.gt (inject_Z n) (_point_max self)).
  - destruct (_calc_downfact self n) as [d|e]; [|reflexivity].
    destruct (self_data_slice self 0 d) as [xs|e]; [|reflexivity].
    destruct (self_data_slice self 1 d) as [ys|e]; [|reflexivity].
    destruct (first_dimension xs =? first_dimension ys)%Z; [|reflexivity].
    repeat rewrite <- app_assoc. reflexivity.
  - destruct (self_data self 1) as [ys|e]; [|reflexivity].
    destruct (first_dimension x0 =? first_dimension ys)%Z; [|reflexivity].
    repeat rewrite <- app_assoc. reflexivity.
Qed.

Lemma onrelease_cases (self : DataPlot) (w : surface) :
  _onrelease self w =
  match release_stride self with
  | Raise e => (Raise e, w)
  | Ok st =>
      match getattr (line self) with
      | Raise e => (Raise e, w)
      | Ok l =>
          match strided_data self st with
          | Raise e => (Raise e, w)
          | Ok (xs, ys) =>
              (Ok (with_line self (set_data l xs ys)), w ++ [SetData xs ys])
          end
      end
  end.
Proof.
  unfold _onrelease, release_stride, strided_data, with_line. run.
  destruct (getattr (changed self)) as [c|e]; [|reflexivity].
  destruct (window_points self (clamp c)) as [n|e]; [|reflexivity].
  destruct (Num.gt (inject_Z n) (_point_max self)).
  - destruct (_calc_downfact self n) as [d|e]; [|reflexivity].
    destruct (getattr (line self)) as [l|e]; [|reflexivity].
    destruct (self_data_slice self 0 d) as [xs|e]; [|reflexivity].
    destruct (self_data_slice self 1 d) as [ys|e]; reflexivity.
  - destruct (getattr (line self)) as [l|e]; [|reflexivity].
    destruct (self_data self 0) as [xs|e]; [|reflexivity].
    destruct (self_data self 1) as [ys|e]; reflexivity.
Qed.

Lemma init_cases (d : pydata) (args : list (list Q)) (kw_fs : option Q)
  (w : surface) :
  __init__ d args kw_fs w =
  match interval (fst (resolve d args kw_fs)) (snd (resolve d args kw_fs)) with
  | Raise e => (Raise e, w)
  | Ok t =>
      _plotdata (mkDataPlot (fst (resolve d args kw_fs)) t
                   (snd (resolve d args kw_fs)) default_point_max None None) w
  end.
Proof.
  unfold __init__. destruct (resolve d args kw_fs) as [f dat]. run.
  destruct (interval f dat); reflexivity.
Qed.

(** ** The recompute on mouse release *)

Lemma release_stride_with_line (self : DataPlot) (l : Line2D) :
  release_stride (with_line self l) = release_stride self.
Proof. reflexivity. Qed.

Lemma strided_data_with_line (self : DataPlot) (l : Line2D) (st : option Z) :
  strided_data (with_line self l) st = strided_data self st.
Proof. reflexivity. Qed.

Lemma set_data_twice (l : Line2D) (xs ys : item) :
  set_data (set_data l xs ys) xs ys = set_data l xs ys.
Proof. reflexivity. Qed.

Lemma with_line_twice (self : DataPlot) (l l' : Line2D) :
  with_line (with_line self l) l' = with_line self l'.
Proof. reflexivity. Qed.

(** What a successful recompute did: it read a stride, took the line and
    the arrays for that stride, and gave the arrays to the line. *)
Lemma onrelease_ok (self self' : DataPlot) (w w' : surface) :
  _onrelease self w = (Ok self', w') ->
  exists st l xs ys,
    release_stride self = Ok st
    /\ line self = Some l
    /\ strided_data self st = Ok (xs, ys)
    /\ self' = with_line self (set_data l xs ys)
    /\ w' = w ++ [SetData xs ys].
Proof.
  rewrite onrelease_cases. intros H.
  destruct (release_stride self) as [st|e] eqn:Es; [|discriminate].
  destruct (line self) as [l|] eqn:El; simpl in H; [|discriminate].
  destruct (strided_data self st) as [[xs ys]|e] eqn:Ed; [|discriminate].
  inversion H; subst. exists st, l, xs, ys. auto.
Qed.

(** A recompute that raises made no call on the rendering surface. *)
Lemma onrelease_raise (self : DataPlot) (w w' : surface) (e : exn) :
  _onrelease self w = (Raise e, w') -> w' = w.
Proof.
  rewrite onrelease_cases. intros H.
  destruct (release_stride self) as [st|e0]; [|inversion H; reflexivity].
  destruct (getattr (line self)) as [l|e0]; [|inversion H; reflexivity].
  destruct (strided_data self st) as [[xs ys]|e0]; inversion H; reflexivity.
Qed.

(** C9. A call of [_onrelease] leaves the stored series, [fs], [ts],
    the point budget and the recorded view range as they were: when it
    returns, the only change is the data of the existing line, given by one
    [set_data] call; when it raises, nothing was changed or called. *)
Theorem onrelease_frame (self : DataPlot) (w : surface) :
  match _onrelease self w with
  | (Ok self', w') =>
      data self' = data self
      /\ fs self' = fs self
      /\ ts self' = ts self
      /\ _point_max self' = _point_max self
      /\ changed self' = changed self
      /\ exists l xs ys,
           line self = Some l
           /\ line self' = Some (mkLine xs ys (visible l))
           /\ w' = w ++ [SetData xs ys]
  | (Raise _, w') => w' = w
  end.
Proof.
  destruct (_onrelease self w) as [[self'|e] w'] eqn:E.
  - apply onrelease_ok in E.
    destruct E as (st & l & xs & ys & _ & Hl & _ & -> & ->).
    do 5 (split; [reflexivity|]). exists l, xs, ys.
    split; [exact Hl|]. split; reflexivity.
  - exact (onrelease_raise _ _ _ _ E).
Qed.

(** C5. Two calls of [_onrelease] in a row, with no [_onchanged] between
    them, hand the same two arrays to the renderer; the second call leaves
    the plot as the first one left it. *)
Theorem onrelease_twice (self self1 : DataPlot) (w w1 : surface) :
  _onrelease self w = (Ok self1, w1) ->
  exists xs ys,
    w1 = w ++ [SetData xs ys]
    /\ _onrelease self1 w1 = (Ok self1, w1 ++ [SetData xs ys]).
Proof.
  intros E. apply onrelease_ok in E.
  destruct E as (st & l & xs & ys & Hst & Hl & Hd & -> & ->).
  exists xs, ys. split; [reflexivity|].
  rewrite onrelease_cases.
  rewrite release_stride_with_line, Hst. simpl.
  rewrite strided_data_with_line, Hd. reflexivity.
Qed.

Example four_plot_init :
  __init__ four_samples [] None [] = (Ok four_plot, four_log).
Proof. reflexivity. Qed.

Example four_viewed_release :
  _onrelease four_viewed four_log = (Ok four_viewed, four_log ++ [four_payload]).
Proof. reflexivity. Qed.

Lemma onrelease_twice_witness :
  exists xs ys,
    four_log ++ [four_payload] = four_log ++ [SetData xs ys]
    /\ _onrelease four_viewed (four_log ++ [four_payload])
       = (Ok four_viewed, (four_log ++ [four_payload]) ++ [SetData xs ys]).
Proof.
  apply (onrelease_twice four_viewed four_viewed four_log
           (four_log ++ [four_payload])).
  reflexivity.
Defined.




(** ** The clamp of the low bound *)

Lemma clamp_negative (low high : Q) :
  (low < 0)%Q -> clamp (low, high) = (0%Q, high).
Proof.
  intros H. unfold clamp. simpl.
  apply lt_true in H. rewrite H. reflexivity.
Qed.

Lemma onrelease_clamp_low (self : DataPlot) (w : surface) (low high : Q) :
  (low < 0)%Q ->
  _onrelease (_onchanged self (low, high)) w =
  match _onrelease (_onchanged self (0%Q, high)) w with
  | (Ok self', w') => (Ok (_onchanged self' (low, high)), w')
  | (Raise e, w') => (Raise e, w')
  end.
Proof.
  intros H. rewrite !onrelease_cases.
  assert (Hs : release_stride (_onchanged self (low, high))
               = release_stride (_onchanged self (0%Q, high))).
  { unfold release_stride. simpl. rewrite (clamp_negative _ _ H).
    reflexivity. }
  rewrite Hs.
  destruct (release_stride (_onchanged self (0%Q, high))) as [st|e];
    [|reflexivity].
  simpl line. destruct (getattr (line self)) as [l|e]; [|reflexivity].
  change (strided_data (_onchanged self (low, high)) st)
    with (strided_data (_onchanged self (0%Q, high)) st).
  destruct (strided_data (_onchanged self (0%Q, high)) st) as [[xs ys]|e];
    reflexivity.
Qed.

(** C4, as the code has it. After a recorded view range [(-50, 100)],
    [_onrelease] makes the same call on the renderer, with the same
    arrays, and returns or raises alike, as after [(0, 100)]; the resulting
    plots are equal in every attribute but the recorded view range, which
    is left as recorded: the clamp applies to the local bounds only. *)
Theorem onrelease_clamp (self : DataPlot) (w : surface) :
  _onrelease (_onchanged self (-50, 100)%Q) w =
  match _onrelease (_onchanged self (0, 100)%Q) w with
  | (Ok self', w') => (Ok (_onchanged self' (-50, 100)%Q), w')
  | (Raise e, w') => (Raise e, w')
  end.
Proof. apply onrelease_clamp_low. reflexivity. Qed.

(** C4 as stated fails on the final state: the recorded view range stays
    [(-50, 100)] in one plot and [(0, 100)] in the other. *)
Lemma onrelease_clamp_keeps_range :
  exists s1 s2 w1 w2,
    _onrelease (_onchanged four_plot (-50, 100)%Q) four_log = (Ok s1, w1)
    /\ _onrelease (_onchanged four_plot (0, 100)%Q) four_log = (Ok s2, w2)
    /\ w1 = w2
    /\ changed s1 = Some (-50, 100)%Q
    /\ changed s2 = Some (0, 100)%Q
    /\ s1 <> s2.
Proof.
  exists (_onchanged four_plot (-50, 100)%Q), (_onchanged four_plot (0, 100)%Q).
  exists (four_log ++ [four_payload]), (four_log ++ [four_payload]).
  repeat (split; [reflexivity|]).
  intros H. apply (f_equal changed) in H. simpl in H. discriminate.
Qed.

(** ** The initial plot *)

Lemma default_point_max_pos : (0 < default_point_max)%Q.
Proof. reflexivity. Qed.

(** Over the budget, the downsampling factor is positive. *)
Lemma calc_downfact_over_budget (self : DataPlot) (point_num : Z) :
  (0 < _point_max self)%Q ->
  Num.gt (inject_Z point_num) (_point_max self) = true ->
  exists down_fact,
    _calc_downfact self point_num = Ok down_fact /\ (0 < down_fact)%Z.
Proof.
  intros Hb Hgt. apply gt_true in Hgt.
  assert (Hp : (0 < point_num)%Z).
  { rewrite Zlt_Qlt. exact (Qlt_trans _ _ _ Hb Hgt). }
  pose proof (ceiling_quotient_pos self Hb point_num Hp) as H1.
  eexists. split; [apply calc_downfact_ceiling; exact Hb|lia].
Qed.

Lemma item_slice_pos (v : list Q) (step : Z) :
  (0 < step)%Z ->
  Py.item_slice (Array v) step = Ok (Array (Py.stride (Z.to_nat step) v)).
Proof.
  intros H. destruct step as [|p|p]; try lia. reflexivity.
Qed.

Lemma stride_same_len {A B} (d : nat) (l : list A) (l' : list B) :
  (0 < d)%nat ->
  length l = length l' ->
  Py.len (Py.stride d l) = Py.len (Py.stride d l').
Proof.
  intros Hd H. rewrite !stride_len by exact Hd. unfold Py.len. now rewrite H.
Qed.

(** With two arrays of one length stored and a positive budget, the
    initial plot is drawn: the whole arrays, or every [down_fact]-th
    sample of both. *)
Lemma plotdata_ok (self : DataPlot) (w : surface) (x y : list Q) :
  (0 < _point_max self)%Q ->
  self_data self 0 = Ok (Array x) ->
  self_data self 1 = Ok (Array y) ->
  length x = length y ->
  exists xs ys,
    _plotdata self w
    = (Ok (with_line self (mkLine (Array xs) (Array ys) true)),
       w ++ [Subplots; SubplotsAdjust; MplConnect;
             Plot (Array xs) (Array ys) false; SetVisible true;
             CallbacksConnect]).
Proof.
  intros Hb Hx Hy L. rewrite plotdata_cases. unfold plot_stride.
  rewrite Hx. simpl.
  destruct (Num.gt (inject_Z (Py.len x)) (_point_max self)) eqn:G.
  - destruct (calc_downfact_over_budget self _ Hb G) as (d & Hd & Hpos).
    rewrite Hd. unfold strided_data, self_data_slice. rewrite Hx, Hy.
    rewrite !item_slice_pos by exact Hpos. cbn [first_dimension].
    rewrite (stride_same_len (Z.to_nat d) x y) by (lia || exact L).
    rewrite Z.eqb_refl. eauto.
  - unfold strided_data. rewrite Hx, Hy. cbn [first_dimension].
    unfold Py.len. rewrite L, Z.eqb_refl. eauto.
Qed.

(** ** Construction *)

Lemma arange_div_length (n : nat) (f : Q) : length (Py.arange_div n f) = n.
Proof. unfold Py.arange_div. now rewrite length_map, length_seq. Qed.

Lemma arange_div_len (v : list Q) (f : Q) :
  Py.len (Py.arange_div (length v) f) = Py.len v.
Proof. unfold Py.len. now rewrite arange_div_length. Qed.

Lemma single_array_shape (v : list Q) :
  input_shape (NdArray v) [] = SingleArray <-> (2 < Py.len v)%Z.
Proof.
  unfold input_shape. simpl.
  destruct (2 <? Py.len v)%Z eqn:E.
  - apply Z.ltb_lt in E. tauto.
  - apply Z.ltb_ge in E. split; [|lia].
    destruct (Py.len v =? 2)%Z; discriminate.
Qed.

(** The sampling rate of the single-array branch: the one supplied, or 1
    when none, or zero, is. *)
Lemma resolve_single (v : list Q) (kw_fs : option Q) :
  (2 < Py.len v)%Z ->
  exists rate,
    resolve (NdArray v) [] kw_fs
    = (Some rate, Some (PyTuple [Py.arange_div (length v) rate; v]))
    /\ Num.truthy rate = true
    /\ rate = match kw_fs with
              | Some f => if Num.truthy f then f else 1%Q
              | None => 1%Q
              end.
Proof.
  intros H. unfold resolve. apply single_array_shape in H. rewrite H.
  destruct kw_fs as [f|]; simpl.
  - destruct (Num.truthy f) eqn:T.
    + exists f. auto.
    + exists 1%Q. auto.
  - exists 1%Q. auto.
Qed.

Lemma init_single (v : list Q) (kw_fs : option Q) (w : surface) :
  (2 < Py.len v)%Z ->
  exists rate xs ys,
    rate = match kw_fs with
           | Some f => if Num.truthy f then f else 1%Q
           | None => 1%Q
           end
    /\ __init__ (NdArray v) [] kw_fs w
       = (Ok (mkDataPlot (Some rate) (Num.truediv 1 rate)
                (Some (PyTuple [Py.arange_div (length v) rate; v]))
                default_point_max
                (Some (mkLine (Array xs) (Array ys) true)) None),
          w ++ [Subplots; SubplotsAdjust; MplConnect;
                Plot (Array xs) (Array ys) false; SetVisible true;
                CallbacksConnect]).
Proof.
  intros H. destruct (resolve_single v kw_fs H) as (rate & Hr & Ht & Hrate).
  exists rate. rewrite init_cases, Hr. simpl. rewrite Ht.
  match goal with
  | |- context [_plotdata ?s w] =>
      destruct (plotdata_ok s w (Py.arange_div (length v) rate) v
                  default_point_max_pos eq_refl eq_refl
                  (arange_div_length (length v) rate)) as (xs & ys & Hp)
  end.
  exists xs, ys. split; [exact Hrate|]. exact Hp.
Qed.

Lemma init_xy (x y : list Q) (rest : list (list Q)) (kw_fs : option Q)
  (w : surface) :
  fs_given kw_fs = true \/ (2 <= Py.len x)%Z ->
  length x = length y ->
  exists t xs ys,
    interval kw_fs (Some (PyTuple [x; y])) = Ok t
    /\ __init__ (NdArray x) (y :: rest) kw_fs w
       = (Ok (mkDataPlot kw_fs t (Some (PyTuple [x; y])) default_point_max
                (Some (mkLine (Array xs) (Array ys) true)) None),
          w ++ [Subplots; SubplotsAdjust; MplConnect;
                Plot (Array xs) (Array ys) false; SetVisible true;
                CallbacksConnect]).
Proof.
  intros H L.
  assert (Hres : resolve (NdArray x) (y :: rest) kw_fs
                 = (kw_fs, Some (PyTuple [x; y]))).
  { unfold resolve, input_shape. simpl.
    replace (0 <? Py.len (y :: rest))%Z with true; [reflexivity|].
    symmetry. apply Z.ltb_lt. unfold Py.len. simpl length. lia. }
  assert (Hint : exists t, interval kw_fs (Some (PyTuple [x; y])) = Ok t).
  { unfold interval, fs_given in *.
    assert (Hd : (2 <= Py.len x)%Z ->
                 exists t, first_difference (Some (PyTuple [x; y])) = Ok t).
    { intros Hl. destruct x as [|a [|b x']]; unfold Py.len in Hl;
        simpl in Hl; try lia. eexists. reflexivity. }
    destruct kw_fs as [f|].
    - destruct (Num.truthy f); [eauto|]. destruct H as [H|H]; [discriminate|auto].
    - destruct H as [H|H]; [discriminate|auto]. }
  destruct Hint as (t & Ht). exists t.
  rewrite init_cases, Hres. simpl fst. simpl snd. rewrite Ht.
  match goal with
  | |- context [_plotdata ?s w] =>
      destruct (plotdata_ok s w x y default_point_max_pos eq_refl eq_refl L)
        as (xs & ys & Hp)
  end.
  exists xs, ys. split; [reflexivity|]. exact Hp.
Qed.

(** Without a matching shape [self.data] is never assigned, and its first
    read raises: in [__init__] without a sampling rate, in [_plotdata],
    once the figure exists, with one. *)
Lemma init_no_shape (d : pydata) (args : list (list Q)) (kw_fs : option Q)
  (w : surface) :
  input_shape d args = NoShape ->
  __init__ d args kw_fs w
  = (Raise AttributeError,
     if fs_given kw_fs then w ++ [Subplots; SubplotsAdjust; MplConnect]
     else w).
Proof.
  intros H. rewrite init_cases. unfold resolve. rewrite H. simpl.
  unfold interval, fs_given. destruct kw_fs as [f|]; [|reflexivity].
  destruct (Num.truthy f); [|reflexivity].
  rewrite plotdata_cases. reflexivity.
Qed.

(** An ndarray of two samples, alone, is taken for a sequence of two
    arrays; its elements are numbers, which have neither items nor a
    length. *)
Lemma init_two_samples (a b : Q) (kw_fs : option Q) (w : surface) :
  input_shape (NdArray [a; b]) [] = TwoSequence
  /\ __init__ (NdArray [a; b]) [] kw_fs w
     = if fs_given kw_fs
       then (Raise TypeError, w ++ [Subplots; SubplotsAdjust; MplConnect])
       else (Raise IndexError, w).
Proof.
  split; [reflexivity|].
  rewrite init_cases. unfold resolve. simpl.
  unfold interval, fs_given. destruct kw_fs as [f|]; [|reflexivity].
  destruct (Num.truthy f); [|reflexivity].
  rewrite plotdata_cases. reflexivity.
Qed.

(** C10. An ndarray given alone takes the single-array branch exactly when
    it has more than two samples, and only then is a plot constructed; an
    ndarray of exactly two samples is taken for a two-element sequence and
    construction raises, no time axis being synthesized. *)
Theorem single_array_needs_three (v : list Q) (a b : Q) (kw_fs : option Q)
  (w : surface) :
  (input_shape (NdArray v) [] = SingleArray <-> (2 < Py.len v)%Z)
  /\ ((exists self w', __init__ (NdArray v) [] kw_fs w = (Ok self, w'))
      <-> (2 < Py.len v)%Z)
  /\ input_shape (NdArray [a; b]) [] = TwoSequence
  /\ exists e w', __init__ (NdArray [a; b]) [] kw_fs w = (Raise e, w').
Proof.
  split; [apply single_array_shape|]. split; [split|split].
  - intros (self & w' & H).
    destruct (Z.ltb_spec 2 (Py.len v)) as [L|L]; [exact L|exfalso].
    destruct v as [|x [|y [|z v']]].
    + rewrite init_no_shape in H by reflexivity. discriminate.
    + rewrite init_no_shape in H by reflexivity. discriminate.
    + destruct (init_two_samples x y kw_fs w) as [_ E]. rewrite E in H.
      destruct (fs_given kw_fs); discriminate.
    + unfold Py.len in L. simpl in L. lia.
  - intros L. destruct (init_single v kw_fs w L) as (r & xs & ys & _ & E).
    eauto.
  - reflexivity.
  - destruct (init_two_samples a b kw_fs w) as [_ E]. rewrite E.
    destruct (fs_given kw_fs); eauto.
Qed.

(** C6, as the code has it. For a value vector of more than two samples,
    construction from the vector with [fs = 2.0] and construction from the
    pair of [arange(n) / 2.0] and the vector both give the sampling
    interval 0.5. *)
Theorem construct_same_interval (v : list Q) (w : surface) :
  (2 < Py.len v)%Z ->
  exists s1 w1 s2 w2,
    __init__ (NdArray v) [] (Some 2%Q) w = (Ok s1, w1)
    /\ __init__ (NdArray (Py.arange_div (length v) 2)) [v] None w = (Ok s2, w2)
    /\ ts s1 = (1 # 2)%Q
    /\ ts s2 = (1 # 2)%Q
    /\ data s1 = data s2.
Proof.
  intros L.
  destruct (init_single v (Some 2%Q) w L) as (r & xs & ys & Hr & E1).
  simpl in Hr. subst r.
  assert (L2 : fs_given None = true
               \/ (2 <= Py.len (Py.arange_div (length v) 2))%Z).
  { right. rewrite arange_div_len. lia. }
  destruct (init_xy (Py.arange_div (length v) 2) v [] None w L2
              (arange_div_length (length v) 2))
    as (t & xs' & ys' & Ht & E2).
  assert (Et : t = (1 # 2)%Q).
  { destruct v as [|a [|b v']]; unfold Py.len in L; simpl in L; try lia.
    simpl in Ht. inversion Ht. reflexivity. }
  subst t.
  do 4 eexists. split; [exact E1|]. split; [exact E2|].
  repeat split; reflexivity.
Qed.

Lemma construct_same_interval_witness :
  exists s1 w1 s2 w2,
    __init__ (NdArray [5; 6; 7]%Q) [] (Some 2%Q) [] = (Ok s1, w1)
    /\ __init__ (NdArray (Py.arange_div (length [5; 6; 7]%Q) 2))
         [[5; 6; 7]%Q] None [] = (Ok s2, w2)
    /\ ts s1 = (1 # 2)%Q
    /\ ts s2 = (1 # 2)%Q
    /\ data s1 = data s2.
Proof.
  apply (construct_same_interval [5; 6; 7]%Q []). reflexivity.
Defined.

(** C6 as stated fails for two samples: the pair of [arange(2) / 2.0] and
    the values is constructed with the interval 0.5, the two values with
    [fs = 2.0] are not constructed at all. *)
Lemma construct_two_samples_differ :
  __init__ (NdArray [5; 6]%Q) [] (Some 2%Q) []
  = (Raise TypeError, [Subplots; SubplotsAdjust; MplConnect])
  /\ exists s2 w2,
       __init__ (NdArray (Py.arange_div 2 2)) [[5; 6]%Q] None [] = (Ok s2, w2)
       /\ ts s2 = (1 # 2)%Q.
Proof.
  split; [reflexivity|]. do 2 eexists. split; reflexivity.
Qed.

Lemma len_two {A} (l : list A) :
  Py.len l = 2%Z -> exists a b, l = [a; b].
Proof.
  unfold Py.len. destruct l as [|a [|b [|c l']]]; simpl length; try lia.
  eauto.
Qed.

Lemma len_pos {A} (l : list A) :
  (0 < Py.len l)%Z -> exists y rest, l = y :: rest.
Proof.
  unfold Py.len. destruct l as [|y rest]; simpl length; [lia|eauto].
Qed.

Lemma len_not_pos {A} (l : list A) : (Py.len l <= 0)%Z -> l = [].
Proof.
  unfold Py.len. destruct l as [|y rest]; simpl length; [reflexivity|lia].
Qed.

(** What each branch of [__init__] tells about the arguments. *)
Lemma input_shape_cases (d : pydata) (args : list (list Q)) :
  match input_shape d args with
  | SingleArray => exists v, d = NdArray v /\ args = [] /\ (2 < Py.len v)%Z
  | XYVectors => exists x y rest, d = NdArray x /\ args = y :: rest
  | TwoSequence =>
      (exists a b, d = NdArray [a; b] /\ args = [])
      \/ (exists x y, d = PyList [x; y] \/ d = PyTuple [x; y])
  | NoShape => True
  end.
Proof.
  unfold input_shape.
  destruct (Z.ltb_spec 0 (Py.len args)) as [La|La];
    destruct (Z.ltb_spec 2 (Py.len_data d)) as [Ld|Ld];
    destruct (Z.eqb_spec (Py.len_data d) 2) as [L2|L2];
    destruct d as [v|items|items]; cbn [Py.has_shape andb negb
      Py.isinstance_list_tuple_ndarray Py.len_data] in *;
    try exact I; try lia;
    try (destruct (len_pos _ La) as (y & rest & ->); eauto; fail);
    try (apply len_not_pos in La; subst args; eauto; fail);
    try (destruct (len_two _ L2) as (a & b & ->); eauto; fail).
  all: apply len_not_pos in La; subst args;
    destruct (len_two _ L2) as (a & b & ->); eauto.
Qed.

(** C8, as the code has it. A sampling rate that is zero or negative is
    not rejected: for a value vector of more than two samples construction
    returns, a zero rate counting as none given ([fs = 1], [ts = 1]) and a
    negative rate giving the negative interval [ts = 1 / fs]. *)
Theorem init_nonpositive_rate (v : list Q) (f : Q) (w : surface) :
  (2 < Py.len v)%Z ->
  (f <= 0)%Q ->
  exists self w',
    __init__ (NdArray v) [] (Some f) w = (Ok self, w')
    /\ if Qeq_bool f 0
       then fs self = Some 1%Q /\ ts self = 1%Q
       else fs self = Some f /\ (ts self == 1 / f)%Q /\ (ts self < 0)%Q.
Proof.
  intros L Hf.
  destruct (init_single v (Some f) w L) as (r & xs & ys & Hr & E).
  do 2 eexists. split; [exact E|]. simpl.
  unfold Num.truthy in Hr. destruct (Qeq_bool f 0) eqn:Z0; simpl in Hr; subst r.
  - split; reflexivity.
  - split; [reflexivity|].
    assert (Hneg : (f < 0)%Q).
    { apply Qle_lteq in Hf. destruct Hf as [Hf|Hf]; [exact Hf|].
      apply Qeq_eq_bool in Hf. congruence. }
    split; [apply truediv_eq|].
    rewrite truediv_eq. unfold Qdiv. rewrite Qmult_1_l.
    apply Qnot_le_lt. intros H0.
    assert (Hi : (0 < / f)%Q).
    { apply Qle_lteq in H0. destruct H0 as [H0|H0]; [exact H0|].
      exfalso. assert (E0 : (f == 0)%Q).
      { rewrite <- (Qinv_involutive f), <- H0. reflexivity. }
      rewrite E0 in Hneg. revert Hneg. apply Qlt_irrefl. }
    apply Qinv_lt_0_compat in Hi. rewrite Qinv_involutive in Hi.
    exact (Qlt_irrefl _ (Qlt_trans _ _ _ Hi Hneg)).
Qed.

Lemma init_nonpositive_rate_witness :
  exists self w',
    __init__ (NdArray [5; 6; 7]%Q) [] (Some (-2)%Q) [] = (Ok self, w')
    /\ if Qeq_bool (-2) 0
       then fs self = Some 1%Q /\ ts self = 1%Q
       else fs self = Some (-2)%Q /\ (ts self == 1 / (-2))%Q
            /\ (ts self < 0)%Q.
Proof.
  apply (init_nonpositive_rate [5; 6; 7]%Q (-2)%Q []).
  - reflexivity.
  - unfold Qle. simpl. lia.
Defined.

(** C8 as stated fails: the sampling rate -2 is accepted and gives the
    interval -1/2; the sampling rate 0 is accepted and replaced by 1. *)
Lemma init_accepts_nonpositive_rate :
  (exists self w',
     __init__ (NdArray [5; 6; 7]%Q) [] (Some (-2)%Q) [] = (Ok self, w')
     /\ fs self = Some (-2)%Q /\ ts self = (-1 # 2)%Q)
  /\ (exists self w',
        __init__ (NdArray [5; 6; 7]%Q) [] (Some 0%Q) [] = (Ok self, w')
        /\ fs self = Some 1%Q /\ ts self = 1%Q).
Proof.
  split; do 2 eexists; (split; [reflexivity|]); split; reflexivity.
Qed.

(** ** A million samples *)

Lemma million_len : Py.len million = 1000000%Z.
Proof.
  unfold Py.len, million. rewrite repeat_length. apply Z2Nat.id. lia.
Qed.

Section Million.

Variable v : list Q.
Hypothesis v_len : Py.len v = 1000000%Z.

Let x : list Q := Py.arange_div (length v) 100.

Let plotted : DataPlot :=
  mkDataPlot (Some 100%Q) (1 # 100)%Q (Some (PyTuple [x; v]))
    default_point_max
    (Some (mkLine (Array (Py.stride 100 x)) (Array (Py.stride 100 v)) true))
    None.

Lemma x_len : Py.len x = 1000000%Z.
Proof. unfold x. rewrite arange_div_len. exact v_len. Qed.

Lemma million_plot_stride : plot_stride plotted = Ok (Some 100%Z).
Proof.
  unfold plot_stride, plotted, self_data. cbn [data getattr Py.getitem nth_error].
  cbn [Py.item_len _point_max]. rewrite x_len. reflexivity.
Qed.

Lemma million_init (w : surface) :
  __init__ (NdArray v) [] (Some 100%Q) w
  = (Ok plotted,
     w ++ [Subplots; SubplotsAdjust; MplConnect;
           Plot (Array (Py.stride 100 x)) (Array (Py.stride 100 v)) false;
           SetVisible true; CallbacksConnect]).
Proof.
  assert (L : (2 < Py.len v)%Z) by (rewrite v_len; lia).
  rewrite init_cases.
  destruct (resolve_single v (Some 100%Q) L) as (r & Hr & _ & Er).
  change (r = 100%Q) in Er. subst r. rewrite Hr.
  cbn [fst snd]. change (interval (Some 100%Q) _) with (@Ok Q (1 # 100)%Q).
  cbv iota.
  rewrite plotdata_cases.
  change (plot_stride _) with (plot_stride plotted).
  rewrite million_plot_stride.
  change (strided_data _ (Some 100%Z))
    with (@Ok (item * item)
            (Array (Py.stride 100 x), Array (Py.stride 100 v))).
  cbn [first_dimension].
  rewrite (stride_same_len 100 x v)
    by (lia || apply arange_div_length).
  rewrite Z.eqb_refl. reflexivity.
Qed.

Lemma million_release_stride :
  release_stride (_onchanged plotted (0, 1000)%Q) = Ok (Some 10%Z).
Proof. reflexivity. Qed.

Lemma million_release (w : surface) :
  _onrelease (_onchanged plotted (0, 1000)%Q) w
  = (Ok (with_line (_onchanged plotted (0, 1000)%Q)
           (mkLine (Array (Py.stride 10 x)) (Array (Py.stride 10 v)) true)),
     w ++ [SetData (Array (Py.stride 10 x)) (Array (Py.stride 10 v))]).
Proof.
  rewrite onrelease_cases, million_release_stride. reflexivity.
Qed.

Lemma million_stride_100 :
  Py.len (Py.stride 100 x) = 10000%Z /\ Py.len (Py.stride 100 v) = 10000%Z.
Proof.
  rewrite !stride_len by lia. rewrite x_len, v_len. split; reflexivity.
Qed.

Lemma million_stride_10 :
  Py.len (Py.stride 10 x) = 100000%Z /\ Py.len (Py.stride 10 v) = 100000%Z.
Proof.
  rewrite !stride_len by lia. rewrite x_len, v_len. split; reflexivity.
Qed.

End Million.

(** C2, as the code has it. For a million samples at 100 samples per unit
    of time and a budget of 10,000 points, the initial plot takes every
    100th sample and hands 10,000 points to the renderer; after the view
    is set to [(0, 1000)], a window of 100,000 samples, [_onrelease] takes
    every 10th sample of the whole series and hands 100,000 points to the
    renderer. *)
Theorem million_session (v : list Q) (w : surface) :
  Py.len v = 1000000%Z ->
  exists self self' w1 x,
    x = Py.arange_div (length v) 100
    /\ __init__ (NdArray v) [] (Some 100%Q) w = (Ok self, w1)
    /\ _point_max self = 10000%Q
    /\ plot_stride self = Ok (Some 100%Z)
    /\ w1 = w ++ [Subplots; SubplotsAdjust; MplConnect;
                  Plot (Array (Py.stride 100 x)) (Array (Py.stride 100 v))
                    false;
                  SetVisible true; CallbacksConnect]
    /\ Py.len (Py.stride 100 x) = 10000%Z
    /\ Py.len (Py.stride 100 v) = 10000%Z
    /\ window_points (_onchanged self (0, 1000)%Q) (0, 1000)%Q = Ok 100000%Z
    /\ release_stride (_onchanged self (0, 1000)%Q) = Ok (Some 10%Z)
    /\ _onrelease (_onchanged self (0, 1000)%Q) w1
       = (Ok self',
          w1 ++ [SetData (Array (Py.stride 10 x)) (Array (Py.stride 10 v))])
    /\ Py.len (Py.stride 10 x) = 100000%Z
    /\ Py.len (Py.stride 10 v) = 100000%Z.
Proof.
  intros L.
  destruct (million_stride_100 v L) as [A1 A2].
  destruct (million_stride_10 v L) as [B1 B2].
  do 4 eexists. split; [reflexivity|].
  split; [apply (million_init v L)|].
  split; [reflexivity|].
  split; [apply (million_plot_stride v L)|].
  split; [reflexivity|].
  split; [exact A1|]. split; [exact A2|].
  split; [reflexivity|].
  split; [apply million_release_stride|].
  split; [apply million_release|].
  split; [exact B1|exact B2].
Qed.

Lemma million_session_witness :
  exists self self' w1 x,
    x = Py.arange_div (length million) 100
    /\ __init__ (NdArray million) [] (Some 100%Q) [] = (Ok self, w1)
    /\ _point_max self = 10000%Q
    /\ plot_stride self = Ok (Some 100%Z)
    /\ w1 = [] ++ [Subplots; SubplotsAdjust; MplConnect;
                   Plot (Array (Py.stride 100 x))
                     (Array (Py.stride 100 million)) false;
                   SetVisible true; CallbacksConnect]
    /\ Py.len (Py.stride 100 x) = 10000%Z
    /\ Py.len (Py.stride 100 million) = 10000%Z
    /\ window_points (_onchanged self (0, 1000)%Q) (0, 1000)%Q = Ok 100000%Z
    /\ release_stride (_onchanged self (0, 1000)%Q) = Ok (Some 10%Z)
    /\ _onrelease (_onchanged self (0, 1000)%Q) w1
       = (Ok self',
          w1 ++ [SetData (Array (Py.stride 10 x))
                   (Array (Py.stride 10 million))])
    /\ Py.len (Py.stride 10 x) = 100000%Z
    /\ Py.len (Py.stride 10 million) = 100000%Z.
Proof.
  apply (million_session million []). exact million_len.
Defined.

(** C2 as stated fails in its second half: for the million samples
    [million], the recompute over the window from 0 to 1000 hands 100,000
    time values to the renderer, not 10,000. *)
Lemma million_recompute_over_budget :
  exists self w1 self' xs ys,
    __init__ (NdArray million) [] (Some 100%Q) [] = (Ok self, w1)
    /\ _onrelease (_onchanged self (0, 1000)%Q) w1
       = (Ok self', w1 ++ [SetData (Array xs) (Array ys)])
    /\ Py.len xs = 100000%Z
    /\ Py.len xs <> 10000%Z.
Proof.
  destruct (million_stride_10 million million_len) as [B1 _].
  do 5 eexists.
  split; [apply (million_init million million_len)|].
  split; [apply million_release|].
  rewrite B1. split; [reflexivity|lia].
Qed.

Section StrideIndex.

Variable A : Type.

Lemma stride_from_nth_error (d : nat) (l : list A) :
  (0 < d)%nat ->
  forall c k, (c < d)%nat ->
    nth_error (Py.stride_from d c l) k = nth_error l (c + k * d).
Proof.
  intros Hd. induction l as [|y l IH]; intros c k Hc.
  - simpl. now rewrite !nth_error_nil.
  - destruct c as [|c]; simpl Py.stride_from.
    + destruct k as [|k]; [reflexivity|].
      simpl nth_error at 1. rewrite (IH (pred d) k) by lia.
      replace (0 + S k * d)%nat with (S (pred d + k * d)) by lia.
      reflexivity.
    + rewrite (IH c k) by lia. reflexivity.
Qed.

(** [l[::d][k]] is [l[k * d]]. *)
Lemma stride_nth_error (d : nat) (l : list A) (k : nat) :
  (0 < d)%nat -> nth_error (Py.stride d l) k = nth_error l (k * d).
Proof.
  intros Hd. unfold Py.stride.
  now rewrite (stride_from_nth_error d l Hd 0 k Hd).
Qed.

End StrideIndex.

Lemma arange_div_nth_error (n i : nat) (f : Q) :
  (i < n)%nat ->
  nth_error (Py.arange_div n f) i
  = Some (Num.truediv (inject_Z (Z.of_nat i)) f).
Proof.
  intros H. unfold Py.arange_div.
  rewrite nth_error_map, nth_error_seq.
  destruct (Nat.ltb_spec i n) as [_|L]; [reflexivity|lia].
Qed.

(** The strided recompute reaches past the window too: with the view on
    [(0, 1000)], the time value 2000 of the million samples is handed to
    the renderer. *)
Example million_release_outside_window :
  exists self w1 self' xs ys,
    __init__ (NdArray million) [] (Some 100%Q) [] = (Ok self, w1)
    /\ _onrelease (_onchanged self (0, 1000)%Q) w1
       = (Ok self', w1 ++ [SetData (Array xs) (Array ys)])
    /\ In 2000%Q xs
    /\ ~ (2000 <= 1000)%Q.
Proof.
  do 5 eexists.
  split; [apply (million_init million million_len)|].
  split; [apply million_release|].
  split.
  - apply (nth_error_In _ (Z.to_nat 20000)).
    rewrite stride_nth_error by lia.
    rewrite arange_div_nth_error.
    + replace (Z.of_nat (Z.to_nat 20000 * 10)) with 200000%Z by lia.
      reflexivity.
    + pose proof million_len as L. unfold Py.len in L. lia.
  - unfold Qle. simpl. lia.
Qed.

(** * Further properties *)

(** ** The downsampling factor, at and around the budget *)

Section DownfactRange.

Local Open Scope Q_scope.

Variable self : DataPlot.
Hypothesis budget_pos : 0 < _point_max self.

Lemma quotient_le (n m : Z) :
  (n <= m)%Z ->
  inject_Z n / _point_max self <= inject_Z m / _point_max self.
Proof.
  intros H. unfold Qdiv. apply Qmult_le_compat_r.
  - rewrite <- Zle_Qle. exact H.
  - apply Qlt_le_weak. apply Qinv_lt_0_compat. exact budget_pos.
Qed.

Lemma quotient_over_one (n : Z) :
  _point_max self < inject_Z n -> 1 < inject_Z n / _point_max self.
Proof.
  intros H. apply Qlt_shift_div_l; [exact budget_pos|].
  rewrite Qmult_1_l. exact H.
Qed.

Lemma quotient_le_one (n : Z) :
  inject_Z n <= _point_max self -> inject_Z n / _point_max self <= 1.
Proof.
  intros H. apply Qle_shift_div_r; [exact budget_pos|].
  rewrite Qmult_1_l. exact H.
Qed.

End DownfactRange.

Lemma ceiling_over_budget (self : DataPlot) (point_num : Z) :
  (0 < _point_max self)%Q ->
  (_point_max self < inject_Z point_num)%Q ->
  (2 <= Qceiling (inject_Z point_num / _point_max self))%Z.
Proof.
  intros Hb Hgt.
  pose proof (quotient_over_one self Hb point_num Hgt) as H1.
  pose proof (Qle_ceiling (inject_Z point_num / _point_max self)) as Hc.
  pose proof (Qlt_le_trans _ _ _ H1 Hc) as H.
  change 1%Q with (inject_Z 1) in H. rewrite <- Zlt_Qlt in H. lia.
Qed.

(** X1. Whenever the point count is above the budget, which is when the
    callers ask for it, the downsampling factor is at least 2. *)
Theorem calc_downfact_over_budget_two (self : DataPlot) (point_num : Z) :
  (0 < _point_max self)%Q ->
  Num.gt (inject_Z point_num) (_point_max self) = true ->
  exists down_fact,
    _calc_downfact self point_num = Ok down_fact /\ (2 <= down_fact)%Z.
Proof.
  intros Hb Hgt. apply gt_true in Hgt.
  rewrite (calc_downfact_ceiling self Hb). eexists. split; [reflexivity|].
  apply ceiling_over_budget; assumption.
Qed.

Lemma calc_downfact_over_budget_two_witness :
  exists down_fact,
    _calc_downfact four_plot 10001 = Ok down_fact /\ (2 <= down_fact)%Z.
Proof.
  apply (calc_downfact_over_budget_two four_plot 10001); reflexivity.
Defined.

(** X2. For a positive point count within the budget the downsampling
    factor is exactly 1. *)
Theorem calc_downfact_within_budget (self : DataPlot) (point_num : Z) :
  (0 < _point_max self)%Q ->
  (0 < point_num)%Z ->
  (inject_Z point_num <= _point_max self)%Q ->
  _calc_downfact self point_num = Ok 1%Z.
Proof.
  intros Hb Hp Hle. rewrite (calc_downfact_ceiling self Hb). f_equal.
  pose proof (ceiling_quotient_pos self Hb point_num Hp) as Hlow.
  pose proof (Qceiling_resp_le _ _ (quotient_le_one self Hb point_num Hle))
    as Hup.
  change (Qceiling 1) with 1%Z in Hup. lia.
Qed.

Lemma calc_downfact_within_budget_witness :
  _calc_downfact four_plot 10000 = Ok 1%Z.
Proof.
  apply (calc_downfact_within_budget four_plot 10000).
  - reflexivity.
  - reflexivity.
  - unfold Qle. simpl. lia.
Defined.

(** X3. The downsampling factor does not decrease when the point count
    grows. *)
Theorem calc_downfact_monotone (self : DataPlot) (n m : Z) :
  (0 < _point_max self)%Q ->
  (n <= m)%Z ->
  exists dn dm,
    _calc_downfact self n = Ok dn
    /\ _calc_downfact self m = Ok dm
    /\ (dn <= dm)%Z.
Proof.
  intros Hb H. rewrite !(calc_downfact_ceiling self Hb).
  do 2 eexists. split; [reflexivity|]. split; [reflexivity|].
  apply Qceiling_resp_le. apply quotient_le; assumption.
Qed.

Lemma calc_downfact_monotone_witness :
  exists dn dm,
    _calc_downfact four_plot 10001 = Ok dn
    /\ _calc_downfact four_plot 30001 = Ok dm
    /\ (dn <= dm)%Z.
Proof.
  apply (calc_downfact_monotone four_plot 10001 30001); [reflexivity|lia].
Defined.

(** X4. A point count of zero or less gives a factor of zero or less,
    which is no usable slice step: zero raises, a negative step runs
    backwards. *)
Theorem calc_downfact_nonpositive (self : DataPlot) (point_num : Z) :
  (0 < _point_max self)%Q ->
  (point_num <= 0)%Z ->
  exists down_fact,
    _calc_downfact self point_num = Ok down_fact
    /\ (down_fact <= 0)%Z
    /\ (down_fact = 0%Z ->
        forall v, Py.slice_step v down_fact = Raise ValueError).
Proof.
  intros Hb H. rewrite (calc_downfact_ceiling self Hb).
  eexists. split; [reflexivity|]. split.
  - pose proof (Qceiling_resp_le _ _ (quotient_le self Hb point_num 0 H))
      as Hup.
    assert (E : Qceiling (inject_Z 0 / _point_max self) = 0%Z).
    { rewrite <- (Qceiling_Z 0). apply Qceiling_comp.
      unfold Qdiv. apply Qmult_0_l. }
    rewrite E in Hup. exact Hup.
  - intros E v. rewrite E. reflexivity.
Qed.

Lemma calc_downfact_nonpositive_witness :
  exists down_fact,
    _calc_downfact four_plot 0 = Ok down_fact
    /\ (down_fact <= 0)%Z
    /\ (down_fact = 0%Z ->
        forall v, Py.slice_step v down_fact = Raise ValueError).
Proof.
  apply (calc_downfact_nonpositive four_plot 0); [reflexivity|lia].
Defined.

(** ** What a plot step hands over *)

Lemma self_data_array_second (self : DataPlot) (x : list Q) (z : item) :
  self_data self 0 = Ok (Array x) ->
  self_data self 1 = Ok z ->
  exists y, z = Array y.
Proof.
  unfold self_data. destruct (data self) as [[v|items|items]|];
    cbn [getattr Py.getitem]; try discriminate.
  - destruct (nth_error v 0); intros H; discriminate.
  - intros _. destruct (nth_error items 1); [|discriminate].
    intros H. inversion H. eauto.
  - intros _. destruct (nth_error items 1); [|discriminate].
    intros H. inversion H. eauto.
Qed.

Lemma item_slice_ok (z z' : item) (step : Z) :
  Py.item_slice z step = Ok z' ->
  exists v v', z = Array v /\ z' = Array v' /\ Py.slice_step v step = Ok v'.
Proof.
  destruct z as [q|v]; simpl; [discriminate|].
  destruct (Py.slice_step v step) as [v'|e] eqn:E; [|discriminate].
  intros H. inversion H. eauto.
Qed.

(** The arrays for a stride, when both stored items are arrays. *)
Lemma strided_data_ok (self : DataPlot) (st : option Z) (xs' ys' : item)
  (x : list Q) :
  self_data self 0 = Ok (Array x) ->
  strided_data self st = Ok (xs', ys') ->
  exists y xs ys,
    self_data self 1 = Ok (Array y)
    /\ xs' = Array xs /\ ys' = Array ys
    /\ match st with
       | None => xs = x /\ ys = y
       | Some d => Py.slice_step x d = Ok xs /\ Py.slice_step y d = Ok ys
       end.
Proof.
  intros Hx. unfold strided_data, self_data_slice. rewrite Hx.
  destruct st as [d|].
  - destruct (Py.item_slice (Array x) d) as [a|e] eqn:Ea; [|discriminate].
    destruct (self_data self 1) as [z|e] eqn:Ez; [|discriminate].
    destruct (Py.item_slice z d) as [b|e] eqn:Eb; [|discriminate].
    intros H. inversion H; subst.
    destruct (item_slice_ok _ _ _ Ea) as (v & xs & Hv & -> & Hs).
    inversion Hv; subst v.
    destruct (item_slice_ok _ _ _ Eb) as (y & ys & -> & -> & Hy).
    exists y, xs, ys. auto.
  - destruct (self_data self 1) as [z|e] eqn:Ez; [|discriminate].
    intros H. inversion H; subst.
    destruct (self_data_array_second self x ys' Hx Ez) as (y & ->).
    exists y, x, y. auto.
Qed.

Lemma slice_step_stride (v v' : list Q) (d : Z) :
  (0 < d)%Z -> Py.slice_step v d = Ok v' -> v' = Py.stride (Z.to_nat d) v.
Proof.
  intros H. destruct d as [|p|p]; try lia. simpl. intros E.
  inversion E. reflexivity.
Qed.

(** What a returning [_plotdata] did, for a positive budget. *)
Lemma plotdata_inv (self self' : DataPlot) (w w' : surface) :
  (0 < _point_max self)%Q ->
  _plotdata self w = (Ok self', w') ->
  exists x y xs ys,
    self_data self 0 = Ok (Array x)
    /\ self_data self 1 = Ok (Array y)
    /\ self' = with_line self (mkLine (Array xs) (Array ys) true)
    /\ w' = w ++ [Subplots; SubplotsAdjust; MplConnect;
                  Plot (Array xs) (Array ys) false; SetVisible true;
                  CallbacksConnect]
    /\ ((Num.gt (inject_Z (Py.len x)) (_point_max self) = false
         /\ xs = x /\ ys = y)
        \/ (Num.gt (inject_Z (Py.len x)) (_point_max self) = true
            /\ exists d,
                 (2 <= d)%Z
                 /\ _calc_downfact self (Py.len x) = Ok d
                 /\ xs = Py.stride (Z.to_nat d) x
                 /\ ys = Py.stride (Z.to_nat d) y))
    /\ Py.len xs = Py.len ys.
Proof.
  intros Hb. rewrite plotdata_cases. intros H.
  destruct (plot_stride self) as [st|e] eqn:Es; [|discriminate].
  destruct (strided_data self st) as [[xs' ys']|e] eqn:Ed; [|discriminate].
  destruct (first_dimension xs' =? first_dimension ys')%Z eqn:Ef;
    [|discriminate].
  inversion H; subst self' w'. clear H.
  unfold plot_stride in Es.
  destruct (self_data self 0) as [x0|e] eqn:Hx; [|discriminate].
  destruct x0 as [q|x]; simpl in Es; [discriminate|].
  destruct (strided_data_ok self st xs' ys' x Hx Ed)
    as (y & xs & ys & Hy & -> & -> & Hst).
  cbn [first_dimension] in Ef. apply Z.eqb_eq in Ef.
  exists x, y, xs, ys. do 4 (split; [reflexivity || assumption|]).
  split; [|exact Ef].
  destruct (Num.gt (inject_Z (Py.len x)) (_point_max self)) eqn:G.
  - right. split; [reflexivity|].
    rewrite (calc_downfact_ceiling self Hb) in Es. inversion Es; subst st.
    destruct Hst as [Sx Sy].
    pose proof (ceiling_over_budget self (Py.len x) Hb
                  (proj1 (gt_true _ _) G)) as H2.
    eexists. split; [exact H2|].
    split; [apply (calc_downfact_ceiling self Hb)|].
    split; apply slice_step_stride; (lia || assumption).
  - left. inversion Es; subst st. destruct Hst as [-> ->]. auto.
Qed.

Lemma self_data_raise (self : DataPlot) (i : nat) (e : exn) :
  self_data self i = Raise e -> e = AttributeError \/ e = IndexError.
Proof.
  unfold self_data. destruct (data self) as [[v|items|items]|];
    cbn [getattr Py.getitem].
  - destruct (nth_error v i); intros H; inversion H; auto.
  - destruct (nth_error items i); intros H; inversion H; auto.
  - destruct (nth_error items i); intros H; inversion H; auto.
  - intros H; inversion H; auto.
Qed.

(** What [_plotdata] does with two stored arrays, for a positive budget:
    it plots them whole or strided, unless what it hands to [ax.plot]
    differs in length. *)
Lemma plotdata_arrays (self : DataPlot) (w : surface) (x y : list Q) :
  (0 < _point_max self)%Q ->
  self_data self 0 = Ok (Array x) ->
  self_data self 1 = Ok (Array y) ->
  exists xs ys,
    ((Num.gt (inject_Z (Py.len x)) (_point_max self) = false
      /\ xs = x /\ ys = y)
     \/ (Num.gt (inject_Z (Py.len x)) (_point_max self) = true
         /\ exists d,
              (2 <= d)%Z
              /\ _calc_downfact self (Py.len x) = Ok d
              /\ xs = Py.stride (Z.to_nat d) x
              /\ ys = Py.stride (Z.to_nat d) y))
    /\ _plotdata self w
       = if (Py.len xs =? Py.len ys)%Z
         then (Ok (with_line self (mkLine (Array xs) (Array ys) true)),
               w ++ [Subplots; SubplotsAdjust; MplConnect;
                     Plot (Array xs) (Array ys) false; SetVisible true;
                     CallbacksConnect])
         else (Raise ValueError, w ++ [Subplots; SubplotsAdjust; MplConnect]).
Proof.
  intros Hb Hx Hy. rewrite plotdata_cases. unfold plot_stride.
  rewrite Hx. cbn [Py.item_len].
  destruct (Num.gt (inject_Z (Py.len x)) (_point_max self)) eqn:G.
  - rewrite (calc_downfact_ceiling self Hb).
    pose proof (ceiling_over_budget self (Py.len x) Hb
                  (proj1 (gt_true _ _) G)) as H2.
    set (d := Qceiling (inject_Z (Py.len x) / _point_max self)) in *.
    unfold strided_data, self_data_slice. rewrite Hx, Hy.
    rewrite !item_slice_pos by lia. cbn [first_dimension].
    exists (Py.stride (Z.to_nat d) x), (Py.stride (Z.to_nat d) y).
    split; [|reflexivity]. right. split; [reflexivity|].
    exists d. repeat split; try reflexivity; assumption.
  - unfold strided_data. rewrite Hx, Hy. cbn [first_dimension].
    exists x, y. split; [|reflexivity]. left. auto.
Qed.

(** What a raising [_plotdata] did, for a positive budget: the figure was
    set up, no line was plotted. *)
Lemma plotdata_raise (self : DataPlot) (w w' : surface) (e : exn) :
  (0 < _point_max self)%Q ->
  _plotdata self w = (Raise e, w') ->
  w' = w ++ [Subplots; SubplotsAdjust; MplConnect]
  /\ (e = AttributeError \/ e = IndexError \/ e = TypeError
      \/ e = ValueError).
Proof.
  intros Hb H.
  destruct (self_data self 0) as [[q|x]|e0] eqn:Hx.
  - rewrite plotdata_cases in H. unfold plot_stride in H. rewrite Hx in H.
    simpl in H. inversion H. auto.
  - destruct (self_data self 1) as [z|e1] eqn:Hy.
    + destruct (self_data_array_second self x z Hx Hy) as (y & ->).
      destruct (plotdata_arrays self w x y Hb Hx Hy) as (xs & ys & _ & E).
      rewrite E in H.
      destruct (Py.len xs =? Py.len ys)%Z; inversion H; auto 6.
    + rewrite plotdata_cases in H. unfold plot_stride in H. rewrite Hx in H.
      cbn [Py.item_len] in H.
      destruct (Num.gt (inject_Z (Py.len x)) (_point_max self)) eqn:G.
      * destruct (calc_downfact_over_budget self _ Hb G) as (d & Hd & Hpos).
        rewrite Hd in H. unfold strided_data, self_data_slice in H.
        rewrite Hx, Hy in H. rewrite item_slice_pos in H by exact Hpos.
        inversion H; subst.
        destruct (self_data_raise self 1 e Hy); auto.
      * unfold strided_data in H. rewrite Hx, Hy in H. inversion H; subst.
        destruct (self_data_raise self 1 e Hy); auto.
  - rewrite plotdata_cases in H. unfold plot_stride in H. rewrite Hx in H.
    inversion H; subst. destruct (self_data_raise self 0 e Hx); auto.
Qed.

Lemma first_difference_raise (d : option pydata) (e : exn) :
  first_difference d = Raise e -> e = AttributeError \/ e = IndexError.
Proof.
  unfold first_difference. destruct d as [dd|]; cbn [getattr].
  - destruct (Py.getitem dd 0) as [x0|e0] eqn:E0.
    + destruct (Py.item_getitem x0 1) as [b|e1] eqn:E1.
      * destruct (Py.item_getitem x0 0) as [a|e2] eqn:E2; [discriminate|].
        intros H; inversion H; subst. right.
        destruct x0 as [q|v]; cbn [Py.item_getitem] in E2; [congruence|].
        destruct (nth_error v 0); congruence.
      * intros H; inversion H; subst. right.
        destruct x0 as [q|v]; cbn [Py.item_getitem] in E1; [congruence|].
        destruct (nth_error v 1); congruence.
    + intros H; inversion H; subst. right.
      destruct dd as [v|items|items]; cbn [Py.getitem] in E0.
      * destruct (nth_error v 0); congruence.
      * destruct (nth_error items 0); congruence.
      * destruct (nth_error items 0); congruence.
  - intros H; inversion H; auto.
Qed.

(** What a returning construction did. *)
Lemma init_ok_inv (d : pydata) (args : list (list Q)) (kw_fs : option Q)
  (w w' : surface) (self : DataPlot) :
  __init__ d args kw_fs w = (Ok self, w') ->
  exists t x y xs ys,
    interval (fst (resolve d args kw_fs)) (snd (resolve d args kw_fs)) = Ok t
    /\ self = mkDataPlot (fst (resolve d args kw_fs)) t
                (snd (resolve d args kw_fs)) default_point_max
                (Some (mkLine (Array xs) (Array ys) true)) None
    /\ self_data self 0 = Ok (Array x)
    /\ self_data self 1 = Ok (Array y)
    /\ w' = w ++ [Subplots; SubplotsAdjust; MplConnect;
                  Plot (Array xs) (Array ys) false; SetVisible true;
                  CallbacksConnect]
    /\ (((Py.len x <= 10000)%Z /\ xs = x /\ ys = y)
        \/ ((10000 < Py.len x)%Z
            /\ exists down_fact,
                 (2 <= down_fact)%Z
                 /\ _calc_downfact self (Py.len x) = Ok down_fact
                 /\ xs = Py.stride (Z.to_nat down_fact) x
                 /\ ys = Py.stride (Z.to_nat down_fact) y))
    /\ Py.len xs = Py.len ys.
Proof.
  rewrite init_cases. intros H.
  destruct (interval (fst (resolve d args kw_fs)) (snd (resolve d args kw_fs)))
    as [t|e]; [|discriminate].
  apply plotdata_inv in H; [|exact default_point_max_pos].
  destruct H as (x & y & xs & ys & Hx & Hy & -> & -> & Hrel & Hlen).
  exists t, x, y, xs, ys. split; [reflexivity|]. split; [reflexivity|].
  split; [exact Hx|]. split; [exact Hy|]. split; [reflexivity|].
  split; [|exact Hlen].
  cbn [_point_max] in Hrel. destruct Hrel as [(G & -> & ->)|(G & dd & Hdd)].
  - left. apply gt_false in G. change default_point_max with (inject_Z 10000) in G.
    rewrite <- Zle_Qle in G. auto.
  - right. apply gt_true in G. change default_point_max with (inject_Z 10000) in G.
    rewrite <- Zlt_Qlt in G. split; [exact G|]. exists dd. exact Hdd.
Qed.

(** ** The budget of the initial plot *)

Lemma budget_times_ceiling (p : Z) :
  (p <= 10000 * Qceiling (inject_Z p / default_point_max))%Z.
Proof.
  pose proof (Qle_ceiling (inject_Z p / default_point_max)) as H.
  apply (Qmult_le_compat_r _ _ default_point_max) in H; [|discriminate].
  rewrite (Qmult_comm (inject_Z p / default_point_max)) in H.
  rewrite Qmult_div_r in H by discriminate.
  change default_point_max with (inject_Z 10000) in *.
  rewrite <- inject_Z_mult, <- Zle_Qle in H. lia.
Qed.

Lemma stride_len_bound {A} (d : Z) (l : list A) :
  (0 < d)%Z ->
  (Py.len l <= 10000 * d)%Z ->
  (Py.len (Py.stride (Z.to_nat d) l) <= 10000)%Z.
Proof.
  intros Hd H. rewrite stride_len by lia. rewrite Z2Nat.id by lia.
  apply Z.lt_succ_r. apply Z.div_lt_upper_bound; lia.
Qed.

Lemma default_downfact (self : DataPlot) (p d : Z) :
  _point_max self = default_point_max ->
  _calc_downfact self p = Ok d ->
  (p <= 10000 * d)%Z.
Proof.
  intros Hb H.
  rewrite calc_downfact_ceiling in H by (rewrite Hb; reflexivity).
  inversion H. rewrite Hb. apply budget_times_ceiling.
Qed.

(** X5. A construction that returns has made six calls on the rendering
    surface, in this order: figure, margins, release callback, one line
    plotted invisible, the line made visible, view callback. The plot
    keeps that line with the arrays it was plotted with, a budget of
    10,000 points, and no view range yet. *)
Theorem init_returns_plot (d : pydata) (args : list (list Q))
  (kw_fs : option Q) (w w' : surface) (self : DataPlot) :
  __init__ d args kw_fs w = (Ok self, w') ->
  exists xs ys,
    w' = w ++ [Subplots; SubplotsAdjust; MplConnect;
               Plot (Array xs) (Array ys) false; SetVisible true;
               CallbacksConnect]
    /\ line self = Some (mkLine (Array xs) (Array ys) true)
    /\ _point_max self = 10000%Q
    /\ changed self = None.
Proof.
  intros H. apply init_ok_inv in H.
  destruct H as (t & x & y & xs & ys & _ & -> & _ & _ & -> & _).
  exists xs, ys. repeat split; reflexivity.
Qed.

Lemma init_returns_plot_witness :
  exists xs ys,
    four_log = [] ++ [Subplots; SubplotsAdjust; MplConnect;
                      Plot (Array xs) (Array ys) false; SetVisible true;
                      CallbacksConnect]
    /\ line four_plot = Some (mkLine (Array xs) (Array ys) true)
    /\ _point_max four_plot = 10000%Q
    /\ changed four_plot = None.
Proof.
  apply (init_returns_plot four_samples [] None [] four_log four_plot).
  reflexivity.
Defined.

(** X6. The initial plot never hands more than 10,000 time values to the
    renderer: a series of at most 10,000 samples is plotted whole, a longer
    one is cut down to at most 10,000 of its own time values. *)
Theorem init_plot_within_budget (d : pydata) (args : list (list Q))
  (kw_fs : option Q) (w w' : surface) (self : DataPlot) :
  __init__ d args kw_fs w = (Ok self, w') ->
  exists x xs ys,
    self_data self 0 = Ok (Array x)
    /\ line self = Some (mkLine (Array xs) (Array ys) true)
    /\ (Py.len xs <= 10000)%Z
    /\ ((Py.len x <= 10000)%Z -> xs = x)
    /\ forall t, In t xs -> In t x.
Proof.
  intros H. apply init_ok_inv in H.
  destruct H as (t & x & y & xs & ys & _ & Hs & Hx & _ & _ & Hrel & _).
  exists x, xs, ys. split; [exact Hx|]. split; [subst self; reflexivity|].
  destruct Hrel as [(L & -> & ->)|(L & dd & H2 & Hd & -> & ->)].
  - split; [exact L|]. split; auto.
  - split.
    + apply stride_len_bound; [lia|].
      apply (default_downfact self); [subst self; reflexivity|exact Hd].
    + split; [lia|]. intros q. apply stride_In.
Qed.

Lemma init_plot_within_budget_witness :
  exists x xs ys,
    self_data four_plot 0 = Ok (Array x)
    /\ line four_plot = Some (mkLine (Array xs) (Array ys) true)
    /\ (Py.len xs <= 10000)%Z
    /\ ((Py.len x <= 10000)%Z -> xs = x)
    /\ forall t, In t xs -> In t x.
Proof.
  apply (init_plot_within_budget four_samples [] None [] four_log four_plot).
  reflexivity.
Defined.

(** ** Construction, shape by shape *)

Lemma resolve_pair (dd : pydata) (x y : list Q) (args : list (list Q))
  (kw_fs : option Q) :
  dd = PyList [x; y] \/ dd = PyTuple [x; y] ->
  resolve dd args kw_fs = (kw_fs, Some dd).
Proof. intros [-> | ->]; reflexivity. Qed.

Lemma resolve_xy (x y : list Q) (rest : list (list Q)) (kw_fs : option Q) :
  resolve (NdArray x) (y :: rest) kw_fs = (kw_fs, Some (PyTuple [x; y])).
Proof.
  unfold resolve, input_shape. cbn [Py.has_shape andb].
  replace (0 <? Py.len (y :: rest))%Z with true; [reflexivity|].
  symmetry. apply Z.ltb_lt. unfold Py.len. simpl length. lia.
Qed.

Lemma interval_not_given (kw_fs : option Q) (d : option pydata) :
  fs_given kw_fs = false -> interval kw_fs d = first_difference d.
Proof.
  unfold interval, fs_given. destruct kw_fs as [f|]; [|reflexivity].
  intros ->. reflexivity.
Qed.

Lemma interval_given (kw_fs : option Q) (d : option pydata) :
  fs_given kw_fs = true ->
  exists f, kw_fs = Some f /\ interval kw_fs d = Ok (Num.truediv 1 f).
Proof.
  unfold interval, fs_given. destruct kw_fs as [f|]; [|discriminate].
  intros ->. eauto.
Qed.

Lemma first_difference_short (dd : pydata) (x y : list Q) :
  dd = PyList [x; y] \/ dd = PyTuple [x; y] ->
  (Py.len x < 2)%Z ->
  first_difference (Some dd) = Raise IndexError.
Proof.
  intros Hd L.
  destruct x as [|a [|b x']]; unfold Py.len in L; simpl length in L;
    try lia; destruct Hd as [-> | ->]; reflexivity.
Qed.

Lemma first_difference_two (dd : pydata) (a b : Q) (x' y : list Q) :
  dd = PyList [a :: b :: x'; y] \/ dd = PyTuple [a :: b :: x'; y] ->
  first_difference (Some dd) = Ok (Num.sub b a).
Proof. intros [-> | ->]; reflexivity. Qed.

(** Two arrays, as two arguments or in a list or tuple: once the sampling
    interval is there, the plot is built unless [ax.plot] refuses what it
    is handed. *)
Lemma init_two_arrays (d dd : pydata) (args : list (list Q)) (x y : list Q)
  (kw_fs : option Q) (w : surface) :
  resolve d args kw_fs = (kw_fs, Some dd) ->
  dd = PyList [x; y] \/ dd = PyTuple [x; y] ->
  match interval kw_fs (Some dd) with
  | Ok t =>
      exists xs ys,
        ((Num.gt (inject_Z (Py.len x)) default_point_max = false
          /\ xs = x /\ ys = y)
         \/ (Num.gt (inject_Z (Py.len x)) default_point_max = true
             /\ xs = Py.stride
                       (Z.to_nat
                          (Qceiling (inject_Z (Py.len x) / default_point_max)))
                       x
             /\ ys = Py.stride
                       (Z.to_nat
                          (Qceiling (inject_Z (Py.len x) / default_point_max)))
                       y))
        /\ __init__ d args kw_fs w
           = if (Py.len xs =? Py.len ys)%Z
             then (Ok (mkDataPlot kw_fs t (Some dd) default_point_max
                         (Some (mkLine (Array xs) (Array ys) true)) None),
                   w ++ [Subplots; SubplotsAdjust; MplConnect;
                         Plot (Array xs) (Array ys) false; SetVisible true;
                         CallbacksConnect])
             else (Raise ValueError,
                   w ++ [Subplots; SubplotsAdjust; MplConnect])
  | Raise e => __init__ d args kw_fs w = (Raise e, w)
  end.
Proof.
  intros Hr Hd. rewrite init_cases, Hr. cbn [fst snd].
  destruct (interval kw_fs (Some dd)) as [t|e]; [|reflexivity].
  match goal with
  | |- context [_plotdata ?s w] =>
      assert (Hx : self_data s 0 = Ok (Array x))
        by (destruct Hd as [-> | ->]; reflexivity);
      assert (Hy : self_data s 1 = Ok (Array y))
        by (destruct Hd as [-> | ->]; reflexivity);
      destruct (plotdata_arrays s w x y default_point_max_pos Hx Hy)
        as (xs & ys & Hrel & Hp);
      pose proof (calc_downfact_ceiling s default_point_max_pos (Py.len x))
        as Hc
  end.
  cbn [_point_max] in Hrel, Hc.
  exists xs, ys. split; [|exact Hp].
  destruct Hrel as [Hrel|(G & d0 & _ & Hd0 & -> & ->)]; [left; exact Hrel|].
  right. rewrite Hc in Hd0. inversion Hd0. auto.
Qed.

(** Two arrays of one length are plotted as soon as the sampling interval
    is there. *)
Lemma init_two_arrays_same (d dd : pydata) (args : list (list Q))
  (x y : list Q) (kw_fs : option Q) (w : surface) :
  resolve d args kw_fs = (kw_fs, Some dd) ->
  dd = PyList [x; y] \/ dd = PyTuple [x; y] ->
  length x = length y ->
  match interval kw_fs (Some dd) with
  | Ok t =>
      exists xs ys,
        __init__ d args kw_fs w
        = (Ok (mkDataPlot kw_fs t (Some dd) default_point_max
                 (Some (mkLine (Array xs) (Array ys) true)) None),
           w ++ [Subplots; SubplotsAdjust; MplConnect;
                 Plot (Array xs) (Array ys) false; SetVisible true;
                 CallbacksConnect])
  | Raise e => __init__ d args kw_fs w = (Raise e, w)
  end.
Proof.
  intros Hr Hd L. pose proof (init_two_arrays d dd args x y kw_fs w Hr Hd) as O.
  destruct (interval kw_fs (Some dd)) as [t|e]; [|exact O].
  destruct O as (xs & ys & Hrel & E). exists xs, ys.
  assert (Hlen : Py.len xs = Py.len ys).
  { destruct Hrel as [(_ & -> & ->)|(G & -> & ->)].
    - unfold Py.len. now rewrite L.
    - apply stride_same_len; [|exact L].
      apply gt_true in G.
      pose proof (ceiling_over_budget
                    (mkDataPlot None 1%Q None default_point_max None None)
                    (Py.len x) default_point_max_pos G) as H2.
      cbn [_point_max] in H2. lia. }
  rewrite Hlen, Z.eqb_refl in E. exact E.
Qed.

Lemma init_outcome (d : pydata) (args : list (list Q)) (kw_fs : option Q)
  (w w' : surface) (e : exn) :
  __init__ d args kw_fs w = (Raise e, w') ->
  (e = AttributeError \/ e = IndexError \/ e = TypeError \/ e = ValueError)
  /\ (e = ValueError -> w' = w ++ [Subplots; SubplotsAdjust; MplConnect])
  /\ (e <> ValueError ->
      w' = if fs_given kw_fs
           then w ++ [Subplots; SubplotsAdjust; MplConnect]
           else w).
Proof.
  intros H. pose proof (input_shape_cases d args) as C.
  assert (Two : forall dd x y,
             resolve d args kw_fs = (kw_fs, Some dd) ->
             dd = PyList [x; y] \/ dd = PyTuple [x; y] ->
             (e = AttributeError \/ e = IndexError \/ e = TypeError
              \/ e = ValueError)
             /\ (e = ValueError ->
                 w' = w ++ [Subplots; SubplotsAdjust; MplConnect])
             /\ (e <> ValueError ->
                 w' = if fs_given kw_fs
                      then w ++ [Subplots; SubplotsAdjust; MplConnect]
                      else w)).
  { intros dd x y Hr Hd.
    pose proof (init_two_arrays d dd args x y kw_fs w Hr Hd) as O.
    destruct (interval kw_fs (Some dd)) as [t|e0] eqn:Ei.
    - destruct O as (xs & ys & _ & E). rewrite E in H.
      destruct (Py.len xs =? Py.len ys)%Z; [discriminate|].
      inversion H; subst. split; [auto 6|]. split; [reflexivity|].
      intros N. contradiction.
    - rewrite O in H. inversion H; subst.
      destruct (fs_given kw_fs) eqn:G.
      + destruct (interval_given kw_fs (Some dd) G) as (f & _ & Ef).
        congruence.
      + rewrite (interval_not_given kw_fs _ G) in Ei.
        destruct (first_difference_raise _ _ Ei) as [-> | ->];
          (split; [auto|]); (split; [discriminate|reflexivity]). }
  destruct (input_shape d args) eqn:S.
  - destruct C as (v & -> & -> & L).
    destruct (init_single v kw_fs w L) as (r & xs & ys & _ & E).
    rewrite E in H. discriminate.
  - destruct C as (x & y & rest & -> & ->).
    exact (Two (PyTuple [x; y]) x y (resolve_xy x y rest kw_fs)
             (or_intror eq_refl)).
  - destruct C as [(a & b & -> & ->)|(x & y & Hd)].
    + destruct (init_two_samples a b kw_fs w) as [_ E]. rewrite E in H.
      destruct (fs_given kw_fs); inversion H;
        (split; [auto|]); (split; [discriminate|reflexivity]).
    + exact (Two d x y (resolve_pair d x y args kw_fs Hd) Hd).
  - rewrite init_no_shape in H by exact S. inversion H.
    split; [auto|]. split; [discriminate|reflexivity].
Qed.

Lemma same_quotient_close (a b d : Z) :
  (0 < d)%Z -> (a / d = b / d)%Z -> (Z.abs (a - b) < d)%Z.
Proof.
  intros Hd H.
  pose proof (Z.div_mod a d) as Ha. pose proof (Z.div_mod b d) as Hb.
  pose proof (Z.mod_pos_bound a d Hd). pose proof (Z.mod_pos_bound b d Hd).
  rewrite H in Ha. lia.
Qed.

Lemma long_time_len : Py.len long_time = 20001%Z.
Proof. unfold long_time. unfold Py.len. rewrite arange_div_length. lia. Qed.

Lemma long_values_len : Py.len long_values = 20000%Z.
Proof. unfold long_values, Py.len. rewrite repeat_length. lia. Qed.

(** C7, as the code has it. Construction has no error of its own and
    checks no lengths itself. When it raises, it raises [AttributeError],
    [IndexError] or [TypeError] at the first use of what could not be
    resolved into two arrays, or matplotlib's [ValueError] when the two
    arrays handed to [ax.plot] differ in length, in some cases after the
    figure was set up and the release callback connected. When it returns,
    the two arrays handed to the renderer have one length; the two stored
    axes have one length whenever the time axis has at most 10,000 values,
    and differ in length by less than the downsampling factor otherwise. *)
Theorem init_axes (d : pydata) (args : list (list Q)) (kw_fs : option Q)
  (w w' : surface) (r : result DataPlot) :
  __init__ d args kw_fs w = (r, w') ->
  match r with
  | Ok self =>
      exists x y xs ys,
        self_data self 0 = Ok (Array x)
        /\ self_data self 1 = Ok (Array y)
        /\ line self = Some (mkLine (Array xs) (Array ys) true)
        /\ length xs = length ys
        /\ ((Py.len x <= 10000)%Z -> length x = length y)
        /\ ((10000 < Py.len x)%Z ->
            exists down_fact,
              _calc_downfact self (Py.len x) = Ok down_fact
              /\ (Z.abs (Py.len x - Py.len y) < down_fact)%Z)
  | Raise e =>
      (e = AttributeError \/ e = IndexError \/ e = TypeError
       \/ e = ValueError)
      /\ (w' = w \/ w' = w ++ [Subplots; SubplotsAdjust; MplConnect])
  end.
Proof.
  intros H. destruct r as [self|e].
  - apply init_ok_inv in H.
    destruct H as (t & x & y & xs & ys & _ & Hs & Hx & Hy & _ & Hrel & Hlen).
    exists x, y, xs, ys.
    split; [exact Hx|]. split; [exact Hy|].
    split; [subst self; reflexivity|].
    split; [unfold Py.len in Hlen; lia|].
    destruct Hrel as [(L & -> & ->)|(L & dd & H2 & Hd & -> & ->)].
    + split; [intros _; unfold Py.len in Hlen; lia|]. intros G. lia.
    + split; [intros G; lia|]. intros _. exists dd. split; [exact Hd|].
      rewrite !stride_len in Hlen by lia. rewrite Z2Nat.id in Hlen by lia.
      apply same_quotient_close in Hlen; lia.
  - destruct (init_outcome d args kw_fs w w' e H) as (He & Hv & Hn).
    split; [exact He|].
    destruct e; try (right; apply Hv; reflexivity);
      (destruct (fs_given kw_fs);
       [right; apply Hn; discriminate|left; apply Hn; discriminate]).
Qed.

Lemma init_axes_witness :
  exists x y xs ys,
    self_data four_plot 0 = Ok (Array x)
    /\ self_data four_plot 1 = Ok (Array y)
    /\ line four_plot = Some (mkLine (Array xs) (Array ys) true)
    /\ length xs = length ys
    /\ ((Py.len x <= 10000)%Z -> length x = length y)
    /\ ((10000 < Py.len x)%Z ->
        exists down_fact,
          _calc_downfact four_plot (Py.len x) = Ok down_fact
          /\ (Z.abs (Py.len x - Py.len y) < down_fact)%Z).
Proof.
  apply (init_axes four_samples [] None [] four_log (Ok four_plot)).
  reflexivity.
Defined.

(** C7 as stated fails. A time axis of 20,001 values and 20,000 values
    are accepted: every third sample of each is plotted, 6,667 of both, so
    the renderer does not object, and the stored axes differ in length.
    And two samples given alone with a sampling rate, which cannot be
    resolved into two axes, make construction raise [TypeError] when the
    figure exists and the release callback is connected. *)
Lemma init_unequal_axes_accepted :
  (exists self w',
     __init__ (NdArray long_time) [long_values] None [] = (Ok self, w')
     /\ self_data self 0 = Ok (Array long_time)
     /\ self_data self 1 = Ok (Array long_values)
     /\ Py.len long_time = 20001%Z
     /\ Py.len long_values = 20000%Z)
  /\ __init__ (NdArray [5; 6]%Q) [] (Some 2%Q) []
     = (Raise TypeError, [Subplots; SubplotsAdjust; MplConnect]).
Proof.
  split; [|reflexivity].
  pose proof (init_two_arrays (NdArray long_time)
                (PyTuple [long_time; long_values]) [long_values]
                long_time long_values None []
                (resolve_xy long_time long_values [] None)
                (or_intror eq_refl)) as O.
  assert (Hfd : interval None (Some (PyTuple [long_time; long_values]))
                = Ok 1%Q).
  { reflexivity. }
  rewrite Hfd in O. destruct O as (xs & ys & Hrel & E).
  rewrite long_time_len in Hrel.
  destruct Hrel as [(G & _)|(_ & -> & ->)]; [discriminate G|].
  change (Z.to_nat (Qceiling (inject_Z 20001 / default_point_max)))
    with 3%nat in E.
  rewrite !stride_len in E by lia.
  rewrite long_time_len, long_values_len in E.
  change ((20001 + Z.of_nat 3 - 1) / Z.of_nat 3
          =? (20000 + Z.of_nat 3 - 1) / Z.of_nat 3)%Z with true in E.
  do 2 eexists. split; [exact E|].
  split; [reflexivity|]. split; [reflexivity|].
  split; [exact long_time_len|exact long_values_len].
Qed.

(** X7. A construction that raises raises [AttributeError], [IndexError],
    [TypeError] or, from [ax.plot], [ValueError], and never plots a line.
    A [ValueError] comes after the figure was set up and the release
    callback connected; so does any other exception when a sampling rate
    was given, while without one nothing was called on the rendering
    surface. *)
Theorem init_raises (d : pydata) (args : list (list Q)) (kw_fs : option Q)
  (w w' : surface) (e : exn) :
  __init__ d args kw_fs w = (Raise e, w') ->
  (e = AttributeError \/ e = IndexError \/ e = TypeError \/ e = ValueError)
  /\ (e = ValueError -> w' = w ++ [Subplots; SubplotsAdjust; MplConnect])
  /\ (e <> ValueError ->
      w' = if fs_given kw_fs
           then w ++ [Subplots; SubplotsAdjust; MplConnect]
           else w).
Proof.
  intros H.
  destruct (init_outcome d args kw_fs w w' e H) as (He & Hv & Hn).
  split; [exact He|]. split; [exact Hv|exact Hn].
Qed.

Lemma init_raises_witness :
  (ValueError = AttributeError \/ ValueError = IndexError
   \/ ValueError = TypeError \/ ValueError = ValueError)
  /\ (ValueError = ValueError ->
      [Subplots; SubplotsAdjust; MplConnect]
      = [] ++ [Subplots; SubplotsAdjust; MplConnect])
  /\ (ValueError <> ValueError ->
      [Subplots; SubplotsAdjust; MplConnect]
      = if fs_given None
        then [] ++ [Subplots; SubplotsAdjust; MplConnect]
        else []).
Proof.
  apply (init_raises (NdArray [0; 1; 5]%Q) [[5; 6]%Q] None []
           [Subplots; SubplotsAdjust; MplConnect] ValueError).
  reflexivity.
Defined.

Lemma resolve_list_args (items : list (list Q)) (args : list (list Q))
  (kw_fs : option Q) :
  resolve (PyList items) args kw_fs = resolve (PyList items) [] kw_fs
  /\ resolve (PyTuple items) args kw_fs = resolve (PyTuple items) [] kw_fs.
Proof.
  unfold resolve, input_shape. cbn [Py.has_shape andb Py.len_data].
  split; destruct (Py.len items =? 2)%Z; reflexivity.
Qed.

(** X8. When [data] is a list or a tuple, the extra positional arguments
    are ignored: construction goes as without them. *)
Theorem init_sequence_ignores_args (items : list (list Q))
  (args : list (list Q)) (kw_fs : option Q) (w : surface) :
  __init__ (PyList items) args kw_fs w = __init__ (PyList items) [] kw_fs w
  /\ __init__ (PyTuple items) args kw_fs w
     = __init__ (PyTuple items) [] kw_fs w.
Proof.
  destruct (resolve_list_args items args kw_fs) as [El Et].
  split; rewrite !init_cases; [rewrite El|rewrite Et]; reflexivity.
Qed.

(** X9. After an ndarray, only the first extra positional argument is
    used, as the values; the others are ignored. *)
Theorem init_xy_first_arg_only (x y : list Q) (rest : list (list Q))
  (kw_fs : option Q) (w : surface) :
  __init__ (NdArray x) (y :: rest) kw_fs w = __init__ (NdArray x) [y] kw_fs w.
Proof.
  rewrite !init_cases, !resolve_xy. reflexivity.
Qed.

Lemma wrong_count_no_shape (items : list (list Q)) (args : list (list Q)) :
  Py.len items <> 2%Z ->
  input_shape (PyList items) args = NoShape
  /\ input_shape (PyTuple items) args = NoShape.
Proof.
  intros H. unfold input_shape. cbn [Py.has_shape andb Py.len_data].
  destruct (Z.eqb_spec (Py.len items) 2) as [E|_]; [contradiction|].
  split; reflexivity.
Qed.

(** X10. A list or tuple that does not hold exactly two arrays is not
    constructed: [self.data] is never assigned and its first read raises
    [AttributeError], after the figure was set up when a sampling rate was
    given, before any call otherwise. *)
Theorem init_sequence_wrong_count (items : list (list Q))
  (args : list (list Q)) (kw_fs : option Q) (w : surface) :
  Py.len items <> 2%Z ->
  __init__ (PyList items) args kw_fs w
  = (Raise AttributeError,
     if fs_given kw_fs then w ++ [Subplots; SubplotsAdjust; MplConnect]
     else w)
  /\ __init__ (PyTuple items) args kw_fs w
     = (Raise AttributeError,
        if fs_given kw_fs then w ++ [Subplots; SubplotsAdjust; MplConnect]
        else w).
Proof.
  intros H. destruct (wrong_count_no_shape items args H) as [Sl St].
  split; apply init_no_shape; assumption.
Qed.

Lemma init_sequence_wrong_count_witness :
  __init__ (PyList [[0; 1]; [5; 6]; [7; 8]]%Q) [] None []
  = (Raise AttributeError,
     if fs_given None then [] ++ [Subplots; SubplotsAdjust; MplConnect]
     else [])
  /\ __init__ (PyTuple [[0; 1]; [5; 6]; [7; 8]]%Q) [] None []
     = (Raise AttributeError,
        if fs_given None then [] ++ [Subplots; SubplotsAdjust; MplConnect]
        else []).
Proof.
  apply (init_sequence_wrong_count [[0; 1]; [5; 6]; [7; 8]]%Q [] None []).
  unfold Py.len. simpl. lia.
Defined.

(** X11. When a time axis and values of one length are given together
    with a sampling rate, the sampling interval is [1 / fs]: the time axis
    plays no part in it, and is stored as supplied. *)
Theorem init_xy_rate (x y : list Q) (rest : list (list Q)) (f : Q)
  (w : surface) :
  Num.truthy f = true ->
  length x = length y ->
  exists self w',
    __init__ (NdArray x) (y :: rest) (Some f) w = (Ok self, w')
    /\ fs self = Some f
    /\ ts self = Num.truediv 1 f
    /\ (ts self == 1 / f)%Q
    /\ data self = Some (PyTuple [x; y]).
Proof.
  intros T L.
  pose proof (init_two_arrays_same (NdArray x) (PyTuple [x; y]) (y :: rest)
                x y (Some f) w (resolve_xy x y rest (Some f))
                (or_intror eq_refl) L) as O.
  cbn [interval] in O. rewrite T in O. destruct O as (xs & ys & E).
  do 2 eexists. split; [exact E|]. cbn [fs ts data].
  repeat split. apply truediv_eq.
Qed.

Lemma init_xy_rate_witness :
  exists self w',
    __init__ (NdArray [0; 1; 5]%Q) [[5; 6; 7]%Q] (Some 2%Q) [] = (Ok self, w')
    /\ fs self = Some 2%Q
    /\ ts self = Num.truediv 1 2
    /\ (ts self == 1 / 2)%Q
    /\ data self = Some (PyTuple [[0; 1; 5]; [5; 6; 7]]%Q).
Proof.
  apply (init_xy_rate [0; 1; 5]%Q [5; 6; 7]%Q [] 2%Q []); reflexivity.
Defined.

(** X12. When a time axis is given without a sampling rate (or with a
    rate of zero), a time axis of fewer than two values makes construction
    raise [IndexError] before any call on the rendering surface; with two
    values or more, and values of the same length as the time axis,
    construction returns and the sampling interval is the difference of
    the first two time values, whatever the others are. *)
Theorem init_xy_no_rate (x y : list Q) (rest : list (list Q))
  (kw_fs : option Q) (w : surface) :
  fs_given kw_fs = false ->
  match x with
  | a :: b :: _ =>
      length x = length y ->
      exists self w',
        __init__ (NdArray x) (y :: rest) kw_fs w = (Ok self, w')
        /\ ts self = Num.sub b a
        /\ (ts self == b - a)%Q
        /\ fs self = kw_fs
  | _ => __init__ (NdArray x) (y :: rest) kw_fs w = (Raise IndexError, w)
  end.
Proof.
  intros G.
  destruct x as [|a [|b x']].
  - pose proof (init_two_arrays (NdArray []) (PyTuple [[]; y]) (y :: rest)
                  [] y kw_fs w (resolve_xy [] y rest kw_fs)
                  (or_intror eq_refl)) as O.
    rewrite (interval_not_given kw_fs _ G) in O. exact O.
  - pose proof (init_two_arrays (NdArray [a]) (PyTuple [[a]; y]) (y :: rest)
                  [a] y kw_fs w (resolve_xy [a] y rest kw_fs)
                  (or_intror eq_refl)) as O.
    rewrite (interval_not_given kw_fs _ G) in O. exact O.
  - intros L.
    pose proof (init_two_arrays_same (NdArray (a :: b :: x'))
                  (PyTuple [a :: b :: x'; y]) (y :: rest) (a :: b :: x') y
                  kw_fs w (resolve_xy (a :: b :: x') y rest kw_fs)
                  (or_intror eq_refl) L) as O.
    rewrite (interval_not_given kw_fs _ G) in O.
    rewrite (first_difference_two _ a b x' y (or_intror eq_refl)) in O.
    destruct O as (xs & ys & E).
    do 2 eexists. split; [exact E|]. cbn [fs ts].
    repeat split. apply sub_eq.
Qed.

Lemma init_xy_no_rate_witness :
  exists self w',
    __init__ (NdArray [1; 4; 5]%Q) [[5; 6; 7]%Q] None [] = (Ok self, w')
    /\ ts self = Num.sub 4 1
    /\ (ts self == 4 - 1)%Q
    /\ fs self = None.
Proof.
  apply (init_xy_no_rate [1; 4; 5]%Q [5; 6; 7]%Q [] None []); reflexivity.
Defined.

(** X13. For a value vector of more than two samples the time axis is
    synthesized with as many values as there are samples, the [i]-th being
    [i / fs] ([fs] being 1 when no rate, or a rate of zero, was given): it
    starts at 0 and its first step is the sampling interval [ts]. *)
Theorem init_single_time_axis (v : list Q) (kw_fs : option Q) (w : surface) :
  (2 < Py.len v)%Z ->
  exists self w' rate x,
    __init__ (NdArray v) [] kw_fs w = (Ok self, w')
    /\ fs self = Some rate
    /\ data self = Some (PyTuple [x; v])
    /\ length x = length v
    /\ (forall i, (i < length v)%nat ->
          nth_error x i = Some (Num.truediv (inject_Z (Z.of_nat i)) rate))
    /\ exists a b,
         nth_error x 0 = Some a /\ nth_error x 1 = Some b
         /\ (a == 0)%Q /\ (b - a == ts self)%Q.
Proof.
  intros L. destruct (init_single v kw_fs w L) as (r & xs & ys & _ & E).
  exists (mkDataPlot (Some r) (Num.truediv 1 r)
            (Some (PyTuple [Py.arange_div (length v) r; v]))
            default_point_max (Some (mkLine (Array xs) (Array ys) true)) None).
  eexists. exists r, (Py.arange_div (length v) r).
  split; [exact E|]. cbn [fs data ts].
  split; [reflexivity|]. split; [reflexivity|].
  split; [apply arange_div_length|].
  split; [intros i Hi; apply arange_div_nth_error; exact Hi|].
  assert (L2 : (1 < length v)%nat) by (unfold Py.len in L; lia).
  exists (Num.truediv 0 r), (Num.truediv 1 r).
  split; [apply (arange_div_nth_error (length v) 0 r); lia|].
  split; [apply (arange_div_nth_error (length v) 1 r); lia|].
  assert (E0 : (Num.truediv 0 r == 0)%Q).
  { rewrite truediv_eq. unfold Qdiv. apply Qmult_0_l. }
  split; [exact E0|]. rewrite E0. ring.
Qed.

Lemma init_single_time_axis_witness :
  exists self w' rate x,
    __init__ (NdArray [5; 6; 7]%Q) [] (Some 2%Q) [] = (Ok self, w')
    /\ fs self = Some rate
    /\ data self = Some (PyTuple [x; [5; 6; 7]%Q])
    /\ length x = length [5; 6; 7]%Q
    /\ (forall i, (i < length [5; 6; 7]%Q)%nat ->
          nth_error x i = Some (Num.truediv (inject_Z (Z.of_nat i)) rate))
    /\ exists a b,
         nth_error x 0 = Some a /\ nth_error x 1 = Some b
         /\ (a == 0)%Q /\ (b - a == ts self)%Q.
Proof.
  apply (init_single_time_axis [5; 6; 7]%Q (Some 2%Q) []). reflexivity.
Defined.

(** ** The recompute on a constructed plot *)

(** X14. On a plot just constructed, before the view has changed once,
    [_onrelease] raises [AttributeError] ([self.changed] was never
    assigned) and calls nothing on the rendering surface. *)
Theorem release_before_view_change (d : pydata) (args : list (list Q))
  (kw_fs : option Q) (w0 w1 : surface) (self : DataPlot) :
  __init__ d args kw_fs w0 = (Ok self, w1) ->
  forall w, _onrelease self w = (Raise AttributeError, w).
Proof.
  intros H w. apply init_ok_inv in H.
  destruct H as (t & x & y & xs & ys & _ & -> & _).
  rewrite onrelease_cases. reflexivity.
Qed.

Lemma release_before_view_change_witness :
  _onrelease four_plot four_log = (Raise AttributeError, four_log).
Proof.
  apply (release_before_view_change four_samples [] None [] four_log
           four_plot).
  reflexivity.
Defined.

(** A recompute returns as soon as a view range is recorded, the
    sampling interval is not zero and two arrays and a line are there. *)
Lemma onrelease_total (self : DataPlot) (w : surface) (c : Q * Q)
  (l : Line2D) (x y : list Q) :
  changed self = Some c ->
  Qeq_bool (ts self) 0 = false ->
  (0 < _point_max self)%Q ->
  line self = Some l ->
  self_data self 0 = Ok (Array x) ->
  self_data self 1 = Ok (Array y) ->
  exists xs ys,
    _onrelease self w
    = (Ok (with_line self (mkLine (Array xs) (Array ys) (visible l))),
       w ++ [SetData (Array xs) (Array ys)]).
Proof.
  intros Hc Ht Hb Hl Hx Hy. rewrite onrelease_cases.
  unfold release_stride, window_points. rewrite Hc, Ht, Hl. cbn [getattr].
  match goal with
  | |- context [Num.gt (inject_Z ?n) _] => set (point_num := n)
  end.
  destruct (Num.gt (inject_Z point_num) (_point_max self)) eqn:G.
  - destruct (calc_downfact_over_budget self _ Hb G) as (d & Hd & Hpos).
    rewrite Hd. unfold strided_data, self_data_slice. rewrite Hx, Hy.
    rewrite !item_slice_pos by exact Hpos.
    do 2 eexists. unfold set_data. reflexivity.
  - unfold strided_data. rewrite Hx, Hy.
    do 2 eexists. unfold set_data. reflexivity.
Qed.

(** X15. On a constructed plot whose sampling interval is not zero, a
    recompute after a view change returns, provided the view bounds are
    within the range of a float (here: at most [2^1000] in size) and the
    view is less than [2^62] sampling intervals wide, so that neither the
    width nor the point count overflows: it makes one [set_data] call with
    two arrays, which the line then holds, still visible. *)
Theorem release_returns (d : pydata) (args : list (list Q))
  (kw_fs : option Q) (w0 w1 w : surface) (self : DataPlot) (c : Q * Q) :
  __init__ d args kw_fs w0 = (Ok self, w1) ->
  ~ (ts self == 0)%Q ->
  (Qabs (fst c) <= inject_Z (2 ^ 1000))%Q ->
  (Qabs (snd c) <= inject_Z (2 ^ 1000))%Q ->
  (Qabs ((snd (clamp c) - fst (clamp c)) / ts self) <= inject_Z (2 ^ 62))%Q ->
  exists self' xs ys,
    _onrelease (_onchanged self c) w
    = (Ok self', w ++ [SetData (Array xs) (Array ys)])
    /\ line self' = Some (mkLine (Array xs) (Array ys) true).
Proof.
  intros H Ht _ _ _. apply init_ok_inv in H.
  destruct H as (t & x & y & xs0 & ys0 & _ & Hs & Hx & Hy & _).
  assert (Ht' : Qeq_bool (ts self) 0 = false).
  { destruct (Qeq_bool (ts self) 0) eqn:E; [|reflexivity].
    apply Qeq_bool_eq in E. contradiction. }
  destruct (onrelease_total (_onchanged self c) w c
              (mkLine (Array xs0) (Array ys0) true) x y)
    as (xs & ys & E); try (subst self; reflexivity); try assumption.
  do 3 eexists. split; [exact E|]. reflexivity.
Qed.

Lemma release_returns_witness :
  exists self' xs ys,
    _onrelease (_onchanged four_plot (1, 2)%Q) four_log
    = (Ok self', four_log ++ [SetData (Array xs) (Array ys)])
    /\ line self' = Some (mkLine (Array xs) (Array ys) true).
Proof.
  apply (release_returns four_samples [] None [] four_log four_log four_plot
           (1, 2)%Q).
  - reflexivity.
  - intros H. discriminate H.
  - vm_compute. intros H. discriminate H.
  - vm_compute. intros H. discriminate H.
  - vm_compute. intros H. discriminate H.
Defined.

(** X16. The spacing of a time axis is not checked: when its first two
    values are equal, the values have the length of the time axis and no
    sampling rate is given, the plot is constructed with a sampling
    interval of zero, and every recompute raises ([OverflowError] or
    [ValueError], from [int] of an infinite or undefined quotient) without
    a call on the rendering surface. *)
Theorem release_zero_interval (a b : Q) (x' y : list Q)
  (rest : list (list Q)) (kw_fs : option Q) (w : surface) :
  (a == b)%Q ->
  length (a :: b :: x') = length y ->
  fs_given kw_fs = false ->
  exists self w1,
    __init__ (NdArray (a :: b :: x')) (y :: rest) kw_fs w = (Ok self, w1)
    /\ (ts self == 0)%Q
    /\ forall c w2,
         exists e,
           _onrelease (_onchanged self c) w2 = (Raise e, w2)
           /\ (e = OverflowError \/ e = ValueError).
Proof.
  intros Hab L G.
  pose proof (init_two_arrays_same (NdArray (a :: b :: x'))
                (PyTuple [a :: b :: x'; y]) (y :: rest) (a :: b :: x') y
                kw_fs w (resolve_xy (a :: b :: x') y rest kw_fs)
                (or_intror eq_refl) L) as O.
  rewrite (interval_not_given kw_fs _ G) in O.
  rewrite (first_difference_two _ a b x' y (or_intror eq_refl)) in O.
  destruct O as (xs & ys & E).
  assert (Z0 : (Num.sub b a == 0)%Q).
  { rewrite sub_eq, Hab. ring. }
  do 2 eexists. split; [exact E|]. cbn [ts]. split; [exact Z0|].
  intros c w2. rewrite onrelease_cases.
  unfold release_stride, window_points. cbn [_onchanged changed ts getattr].
  rewrite (Qeq_eq_bool _ _ Z0).
  destruct (Qeq_bool (Num.sub (snd (clamp c)) (fst (clamp c))) 0);
    eexists; split; try reflexivity; auto.
Qed.

Lemma release_zero_interval_witness :
  exists self w1,
    __init__ (NdArray [3; 3; 4]%Q) [[5; 6; 7]%Q] None [] = (Ok self, w1)
    /\ (ts self == 0)%Q
    /\ forall c w2,
         exists e,
           _onrelease (_onchanged self c) w2 = (Raise e, w2)
           /\ (e = OverflowError \/ e = ValueError).
Proof.
  apply (release_zero_interval 3 3 [4]%Q [5; 6; 7]%Q [] None []);
    reflexivity.
Defined.

(** What a returning recompute did, for a positive budget. *)
Lemma onrelease_inv (self self' : DataPlot) (w w' : surface) (x : list Q) :
  (0 < _point_max self)%Q ->
  self_data self 0 = Ok (Array x) ->
  _onrelease self w = (Ok self', w') ->
  exists c n l y xs ys,
    changed self = Some c
    /\ window_points self (clamp c) = Ok n
    /\ line self = Some l
    /\ self_data self 1 = Ok (Array y)
    /\ self' = with_line self (mkLine (Array xs) (Array ys) (visible l))
    /\ w' = w ++ [SetData (Array xs) (Array ys)]
    /\ ((Num.gt (inject_Z n) (_point_max self) = false /\ xs = x /\ ys = y)
        \/ (Num.gt (inject_Z n) (_point_max self) = true
            /\ exists d,
                 (2 <= d)%Z
                 /\ _calc_downfact self n = Ok d
                 /\ xs = Py.stride (Z.to_nat d) x
                 /\ ys = Py.stride (Z.to_nat d) y)).
Proof.
  intros Hb Hx H. apply onrelease_ok in H.
  destruct H as (st & l & xs' & ys' & Hst & Hl & Hd & -> & ->).
  destruct (strided_data_ok self st xs' ys' x Hx Hd)
    as (y & xs & ys & Hy & -> & -> & Hrel).
  unfold release_stride in Hst.
  destruct (changed self) as [c|] eqn:Hc; [|discriminate].
  cbn [getattr] in Hst.
  destruct (window_points self (clamp c)) as [n|e] eqn:Hn; [|discriminate].
  exists c, n, l, y, xs, ys.
  do 6 (split; [reflexivity || assumption|]).
  destruct (Num.gt (inject_Z n) (_point_max self)) eqn:G.
  - right. split; [reflexivity|].
    rewrite (calc_downfact_ceiling self Hb) in Hst. inversion Hst; subst st.
    destruct Hrel as [Sx Sy].
    pose proof (ceiling_over_budget self n Hb (proj1 (gt_true _ _) G)) as H2.
    eexists. split; [exact H2|].
    split; [apply (calc_downfact_ceiling self Hb)|].
    split; apply slice_step_stride; (lia || assumption).
  - left. inversion Hst; subst st. destruct Hrel as [-> ->]. auto.
Qed.






(** X19. A recompute keeps the series in step: for some step [d >= 1],
    the [k]-th time value and the [k]-th value handed to the renderer are
    the time value and the value of the same stored sample, sample
    [k * d]; the first sample is always among them. *)
Theorem release_samples_aligned (self self' : DataPlot) (w w' : surface)
  (x : list Q) :
  (0 < _point_max self)%Q ->
  self_data self 0 = Ok (Array x) ->
  _onrelease self w = (Ok self', w') ->
  exists y xs ys d,
    self_data self 1 = Ok (Array y)
    /\ w' = w ++ [SetData (Array xs) (Array ys)]
    /\ (1 <= d)%nat
    /\ forall k,
         nth_error xs k = nth_error x (k * d)
         /\ nth_error ys k = nth_error y (k * d).
Proof.
  intros Hb Hx H.
  destruct (onrelease_inv self self' w w' x Hb Hx H)
    as (c & n & l & y & xs & ys & _ & _ & _ & Hy & _ & -> & Hrel).
  exists y, xs, ys.
  destruct Hrel as [(_ & -> & ->)|(_ & d & H2 & _ & -> & ->)].
  - exists 1%nat. split; [exact Hy|]. split; [reflexivity|].
    split; [lia|]. intros k. rewrite Nat.mul_1_r. auto.
  - exists (Z.to_nat d). split; [exact Hy|]. split; [reflexivity|].
    split; [lia|]. intros k. rewrite !stride_nth_error by lia. auto.
Qed.

Lemma release_samples_aligned_witness :
  exists y xs ys d,
    self_data four_viewed 1 = Ok (Array y)
    /\ four_log ++ [four_payload] = four_log ++ [SetData (Array xs) (Array ys)]
    /\ (1 <= d)%nat
    /\ forall k,
         nth_error xs k = nth_error [0; 1; 2; 3]%Q (k * d)
         /\ nth_error ys k = nth_error y (k * d).
Proof.
  apply (release_samples_aligned four_viewed four_viewed four_log
           (four_log ++ [four_payload]) [0; 1; 2; 3]%Q); reflexivity.
Defined.

(** X20. A recompute keeps no memory of earlier ones: after a recompute
    has returned, changing the view and releasing again gives exactly the
    plot and the call that the same view change and release give on the
    plot as it was before. *)
Theorem release_history_independent (self self1 : DataPlot) (w w1 : surface) :
  _onrelease self w = (Ok self1, w1) ->
  forall c w2,
    _onrelease (_onchanged self1 c) w2 = _onrelease (_onchanged self c) w2.
Proof.
  intros H c w2. apply onrelease_ok in H.
  destruct H as (st & l & xs & ys & _ & Hl & _ & -> & _).
  rewrite !onrelease_cases.
  change (release_stride (_onchanged (with_line self (set_data l xs ys)) c))
    with (release_stride (_onchanged self c)).
  destruct (release_stride (_onchanged self c)) as [st'|e]; [|reflexivity].
  cbn [_onchanged with_line line getattr]. rewrite Hl. cbn [getattr].
  change (strided_data
            (_onchanged (with_line self (set_data l xs ys)) c) st')
    with (strided_data (_onchanged self c) st').
  destruct (strided_data (_onchanged self c) st') as [[xs' ys']|e];
    reflexivity.
Qed.

Lemma release_history_independent_witness :
  _onrelease (_onchanged four_viewed (0, 3)%Q) four_log
  = _onrelease
      (_onchanged
         (with_line four_viewed (mkLine (Array []) (Array []) true))
         (0, 3)%Q) four_log.
Proof.
  apply (release_history_independent
           (with_line four_viewed (mkLine (Array []) (Array []) true))
           four_viewed four_log (four_log ++ [four_payload])).
  reflexivity.
Defined.
